(** * bigip_device_license: a shallow embedding of the license module

    Embeds [LicenseXmlParser], [ModuleParameters.license_envelope] and the
    [ModuleManager] operations of
    lib/ansible/modules/network/f5/bigip_device_license.py.
    The device (iControl REST) and the activation server are modelled as
    oracles held in an explicit state; every call made to the device is
    recorded in a log. *)

From Stdlib Require Import String Ascii List Bool Arith Lia ZArith.
Import ListNotations.
Open Scope list_scope.
Open Scope string_scope.

(** ** Python string helpers *)

Definition dq_char : ascii := "034"%char.
Definition nl_char : ascii := "010"%char.
Definition bs_char : ascii := "092"%char.
Definition dq : string := String dq_char EmptyString.
Definition nl : string := String nl_char EmptyString.

(** Rocq string literals write the double quote character twice; the long
    literal templates below write it as [~] and [tq] turns it back into a
    double quote.  No template of the source contains [~]. *)
Fixpoint tq (s : string) : string :=
  match s with
  | EmptyString => EmptyString
  | String c r =>
      String (if Ascii.eqb c "~"%char then dq_char else c) (tq r)
  end.

(** Python's [needle in hay] on strings. *)
Fixpoint contains (needle hay : string) : bool :=
  if String.prefix needle hay then true
  else match hay with
       | EmptyString => false
       | String _ r => contains needle r
       end.

(** Python's truthiness coercions [x or None] and [x or ''] on an optional
    string. *)
Definition or_none (x : option string) : option string :=
  match x with
  | Some EmptyString => None
  | _ => x
  end.

Definition or_empty (x : option string) : string :=
  match x with
  | Some s => s
  | None => EmptyString
  end.

(** [str.format]: a template is read into literal pieces and named
    replacement fields; rendering substitutes the fields.  Substituted
    values are not scanned again, as in Python. *)
Inductive piece :=
| Lit (s : string)
| Field (name : string).

Definition push_char (c : ascii) (ps : list piece) : list piece :=
  match ps with
  | Lit s :: rest => Lit (String c s) :: rest
  | _ => Lit (String c EmptyString) :: ps
  end.

(** [tokens_aux s] scans [s] outside a field; [field] accumulates the name
    of the field being read. *)
Fixpoint tokens_aux (s : string) (field : option string) : list piece :=
  match s with
  | EmptyString =>
      match field with
      | None => []
      | Some f => [Lit (String "{"%char f)]
      end
  | String c r =>
      match field with
      | None =>
          if Ascii.eqb c "{"%char then tokens_aux r (Some EmptyString)
          else push_char c (tokens_aux r None)
      | Some f =>
          if Ascii.eqb c "}"%char then Field f :: tokens_aux r None
          else tokens_aux r (Some (f ++ String c EmptyString))
      end
  end.

Definition tokens (s : string) : list piece := tokens_aux s None.

Fixpoint lookup (k : string) (args : list (string * string)) : string :=
  match args with
  | [] => EmptyString
  | (k', v) :: rest => if String.eqb k k' then v else lookup k rest
  end.

Fixpoint render (args : list (string * string)) (ps : list piece) : string :=
  match ps with
  | [] => EmptyString
  | Lit s :: rest => s ++ render args rest
  | Field f :: rest => lookup f args ++ render args rest
  end.

Definition py_format (tpl : string) (args : list (string * string)) : string :=
  render args (tokens tpl).

(** Python's [int(text)] on the text of an XML element, as CPython 3.11
    computes it.  A text is held as the bytes of its UTF-8 encoding.
    [int] first maps each code point of at least 127 to a blank when it is
    whitespace, to its ASCII digit when it is a decimal digit, and fails
    on any other one (the Unicode 14.0 tables of CPython 3.11); it then
    reads the ASCII text: blanks, an optional sign, decimal digits with
    single underscores between them (at most 4300 digits), blanks.
    [int(None)] and any other text raise, which is [None] here. *)

(** UTF-8 decoding; [-1] marks a byte sequence that is not UTF-8, which
    no text of an element contains. *)
Definition utf8_cont (b : Z) : bool := ((128 <=? b) && (b <? 192))%Z.

Fixpoint utf8_decode (l : list Z) : list Z :=
  match l with
  | [] => []
  | b :: r =>
      if b <? 128 then b :: utf8_decode r
      else if (192 <=? b) && (b <? 224) then
        match r with
        | c1 :: r1 =>
            if utf8_cont c1
            then ((b - 192) * 64 + (c1 - 128)) :: utf8_decode r1
            else [-1]
        | [] => [-1]
        end
      else if (224 <=? b) && (b <? 240) then
        match r with
        | c1 :: c2 :: r2 =>
            if utf8_cont c1 && utf8_cont c2
            then ((b - 224) * 4096 + (c1 - 128) * 64 + (c2 - 128)) :: utf8_decode r2
            else [-1]
        | _ => [-1]
        end
      else if (240 <=? b) && (b <? 248) then
        match r with
        | c1 :: c2 :: c3 :: r3 =>
            if utf8_cont c1 && utf8_cont c2 && utf8_cont c3
            then ((b - 240) * 262144 + (c1 - 128) * 4096 + (c2 - 128) * 64
                  + (c3 - 128)) :: utf8_decode r3
            else [-1]
        | _ => [-1]
        end
      else [-1]
  end%Z.

Definition code_points (s : string) : list Z :=
  utf8_decode (map (fun c => Z.of_nat (Ascii.nat_of_ascii c)) (list_ascii_of_string s)).

(** The code points from 127 up that [Py_UNICODE_ISSPACE] accepts. *)
Definition unicode_spaces : list Z :=
  [133; 160; 5760; 8192; 8193; 8194; 8195; 8196; 8197; 8198; 8199; 8200;
   8201; 8202; 8232; 8233; 8239; 8287; 12288]%Z.

(** The first code point of each run of decimal digits 0 to 9. *)
Definition decimal_zeros : list Z :=
  [48; 1632; 1776; 1984; 2406; 2534; 2662; 2790; 2918; 3046; 3174; 3302;
   3430; 3558; 3664; 3792; 3872; 4160; 4240; 6112; 6160; 6470; 6608; 6784;
   6800; 6992; 7088; 7232; 7248; 42528; 43216; 43264; 43472; 43504; 43600;
   44016; 65296; 66720; 68912; 69734; 69872; 69942; 70096; 70384; 70736;
   70864; 71248; 71360; 71472; 71904; 72016; 72784; 73040; 73120; 92768;
   92864; 93008; 120782; 120792; 120802; 120812; 120822; 123200; 123632;
   125264; 130032]%Z.

Definition py_decimal (c : Z) : option Z :=
  match find (fun z => (z <=? c) && (c <? z + 10))%Z decimal_zeros with
  | Some z => Some (c - z)%Z
  | None => None
  end.

(** [_PyUnicode_TransformDecimalAndSpaceToASCII] *)
Fixpoint to_ascii_digits (l : list Z) : option (list Z) :=
  match l with
  | [] => Some []
  | c :: r =>
      let c' := if (0 <=? c) && (c <? 127) then Some c
                else if existsb (Z.eqb c) unicode_spaces then Some 32
                else option_map (Z.add 48) (py_decimal c) in
      match c', to_ascii_digits r with
      | Some x, Some r' => Some (x :: r')
      | _, _ => None
      end
  end%Z.

(** [Py_ISSPACE] *)
Definition ascii_space (c : Z) : bool := (((9 <=? c) && (c <=? 13)) || (c =? 32))%Z.

Fixpoint skip_spaces (l : list Z) : list Z :=
  match l with
  | c :: r => if ascii_space c then skip_spaces r else l
  | [] => []
  end.

(** The digit loop of [long_from_string_base]: the value, the number of
    digits and the rest; two underscores in a row or a trailing one fail. *)
Fixpoint scan_digits (l : list Z) (acc cnt : Z) (prev_us : bool)
  : option (Z * Z * list Z) :=
  match l with
  | c :: r =>
      if (48 <=? c) && (c <=? 57) then scan_digits r (acc * 10 + (c - 48)) (cnt + 1) false
      else if c =? 95 then (if prev_us then None else scan_digits r acc cnt true)
      else if prev_us then None else Some (acc, cnt, l)
  | [] => if prev_us then None else Some (acc, cnt, [])
  end%Z.

Definition max_str_digits : Z := 4300.

(** [PyLong_FromString] with base 10 on the whole text. *)
Definition py_int_ascii (l : list Z) : option Z :=
  let l1 := skip_spaces l in
  let '(sgn, l2) := match l1 with
                    | c :: r => if (c =? 45)%Z then ((-1)%Z, r)
                                else if (c =? 43)%Z then (1%Z, r) else (1%Z, l1)
                    | [] => (1%Z, l1)
                    end in
  match l2 with
  | c :: _ => if (c =? 95)%Z then None else
      match scan_digits l2 0 0 false with
      | Some (v, cnt, rest) =>
          if (cnt =? 0)%Z then None
          else if (max_str_digits <? cnt)%Z then None
          else match skip_spaces rest with
               | [] => Some (sgn * v)%Z
               | _ => None
               end
      | None => None
      end
  | [] => None
  end.

Definition py_int (t : option string) : option Z :=
  match t with
  | None => None
  | Some x =>
      match to_ascii_digits (code_points x) with
      | Some l => py_int_ascii l
      | None => None
      end
  end.

#[local] Set Warnings "-register-all".

(** ** XML documents as [xml.etree.ElementTree] gives them *)

Inductive elem := Elem {
  tag : string;
  attrib : list (string * string);
  text : option string;
  children : list elem
}.

(** A raw payload either fails [ElementTree.fromstring] with a [ParseError]
    (carrying its message) or parses to a root element. *)
Inductive raw :=
| NotWellFormed (parse_error : string)
| WellFormed (root : elem).

(** [findall('.//t')]: the descendants of the root (the root excluded) with
    tag [t], in document order. *)
Fixpoint descendants_with (t : string) (e : elem) : list elem :=
  let fix in_children (cs : list elem) : list elem :=
    match cs with
    | [] => []
    | c :: rest =>
        app (if String.eqb (tag c) t then [c] else [])
            (app (descendants_with t c) (in_children rest))
    end in
  in_children (children e).

Definition findall (t : string) (root : elem) : list elem :=
  descendants_with t root.

(** [root[0].text], with the [IndexError] caught and turned into [None]. *)
Definition first_text (l : list elem) : option string :=
  match l with
  | [] => None
  | e :: _ => text e
  end.

Module LicenseXmlParser.

Definition eula (root : elem) : option string := first_text (findall "eula" root).
Definition license (root : elem) : option string :=
  first_text (findall "license" root).

(** [find_element]: the first [multiRef] element one of whose attribute
    values contains [value]. *)
Definition find_element (value : string) (root : elem) : option elem :=
  find (fun e => existsb (fun kv => contains value (snd kv)) (attrib e))
       (findall "multiRef" root).

Definition state (root : elem) : option string :=
  match find_element "TransactionState" root with
  | Some e => text e
  | None => None
  end.

Definition xsi_nil : string := "{http://www.w3.org/2001/XMLSchema-instance}nil".

(** The dictionary built by [get_fault]: [fault_number] is [None] when the
    key is absent and [Some n] when present (its value [n] is then
    [Some z]); [fault_text] likewise.  [int(elem.text)] raising makes the
    whole call raise ([None]). *)
Record fault := {
  f_number : option (option Z);
  f_text : option (option string)
}.

Fixpoint fault_fields (cs : list elem) (acc : fault) : option fault :=
  match cs with
  | [] => Some acc
  | c :: rest =>
      if String.eqb (tag c) "faultNumber" then
        match py_int (text c) with
        | Some z => fault_fields rest {| f_number := Some (Some z);
                                         f_text := f_text acc |}
        | None => None
        end
      else if String.eqb (tag c) "faultText" then
        let v := if String.eqb (lookup xsi_nil (attrib c)) "true"
                 then None else text c in
        fault_fields rest {| f_number := f_number acc; f_text := Some v |}
      else fault_fields rest acc
  end.

Definition get_fault (root : elem) : option fault :=
  match find_element "LicensingFault" root with
  | None => Some {| f_number := None; f_text := None |}
  | Some r =>
      match fault_fields (children r) {| f_number := None; f_text := None |} with
      | None => None
      | Some f =>
          Some {| f_number := match f_number f with
                              | None => Some None
                              | n => n
                              end;
                  f_text := f_text f |}
      end
  end.

(** [fault.get(key, None)] *)
Definition fault_number (root : elem) : option (option Z) :=
  option_map (fun f => match f_number f with Some n => n | None => None end)
             (get_fault root).
Definition fault_text (root : elem) : option (option string) :=
  option_map (fun f => match f_text f with Some t => t | None => None end)
             (get_fault root).

Record result := {
  r_eula : option string;
  r_license : option string;
  r_state : option string;
  r_fault_number : option Z;
  r_fault_text : option string
}.

(** [json()]: [None] when one of the properties raises. *)
Definition json (root : elem) : option result :=
  match fault_number root, fault_text root with
  | Some n, Some t =>
      Some {| r_eula := or_none (eula root);
              r_license := or_none (license root);
              r_state := or_none (state root);
              r_fault_number := n;
              r_fault_text := or_none t |}
  | _, _ => None
  end.

End LicenseXmlParser.

(** ** Module parameters *)

(** [ModuleParameters]: the attributes read by the code.  [state] is the
    module's [state] option ([present] or [absent]); [license_options] reads
    it for the [stateProvince] field, as the source does. *)
Record params := {
  license_key : option string;
  license_server : string;
  accept_eula : bool;
  state : string;
  dossier : option string;
  eula : option string;
  email : option string;
  first_name : option string;
  last_name : option string;
  company : option string;
  phone : option string;
  job_title : option string;
  address : option string;
  city : option string;
  postal_code : option string;
  country : option string
}.

(** [self.want.update({'eula': v})] and [self.want.update({'dossier': v})] *)
Definition with_eula (w : params) (v : option string) : params :=
  {| license_key := license_key w; license_server := license_server w;
     accept_eula := accept_eula w; state := state w; dossier := dossier w;
     eula := v; email := email w; first_name := first_name w;
     last_name := last_name w; company := company w; phone := phone w;
     job_title := job_title w; address := address w; city := city w;
     postal_code := postal_code w;
     country := country w |}.

Definition with_dossier (w : params) (v : option string) : params :=
  {| license_key := license_key w; license_server := license_server w;
     accept_eula := accept_eula w; state := state w; dossier := v;
     eula := eula w; email := email w; first_name := first_name w;
     last_name := last_name w; company := company w; phone := phone w;
     job_title := job_title w; address := address w; city := city w;
     postal_code := postal_code w;
     country := country w |}.

(** [str(x)] of an optional string, as [format] prints it. *)
Definition py_str (x : option string) : string :=
  match x with
  | Some v => v
  | None => "None"
  end.

Definition license_options (w : params) : list (string * string) :=
  [("eula", or_empty (eula w));
   ("email", or_empty (email w));
   ("first_name", or_empty (first_name w));
   ("last_name", or_empty (last_name w));
   ("company", or_empty (company w));
   ("phone", or_empty (phone w));
   ("job_title", or_empty (job_title w));
   ("address", or_empty (address w));
   ("city", or_empty (city w));
   ("state", or_empty (Some (state w)));
   ("postal_code", or_empty (postal_code w));
   ("country", or_empty (country w))].

Definition license_url (w : params) : string :=
  py_format "https://{0}/license/services/urn:com.f5.license.v5b.ActivationService"
            [("0", license_server w)].

Definition envelope_template : string := tq "<?xml version=~1.0~ encoding=~UTF-8~?>
        <SOAP-ENV:Envelope xmlns:ns3=~http://www.w3.org/2001/XMLSchema~
                           xmlns:SOAP-ENC=~http://schemas.xmlsoap.org/soap/encoding/~
                           xmlns:ns0=~http://schemas.xmlsoap.org/soap/encoding/~
                           xmlns:ns1=~https://{0}/license/services/urn:com.f5.license.v5b.ActivationService~
                           xmlns:ns2=~http://schemas.xmlsoap.org/soap/envelope/~
                           xmlns:xsi=~http://www.w3.org/2001/XMLSchema-instance~
                           xmlns:SOAP-ENV=~http://schemas.xmlsoap.org/soap/envelope/~
                           SOAP-ENV:encodingStyle=~http://schemas.xmlsoap.org/soap/encoding/~>
          <SOAP-ENV:Header/>
          <ns2:Body>
            <ns1:getLicense>
              <dossier xsi:type=~ns3:string~>{1}</dossier>
              <eula xsi:type=~ns3:string~>{eula}</eula>
              <email xsi:type=~ns3:string~>{email}</email>
              <firstName xsi:type=~ns3:string~>{first_name}</firstName>
              <lastName xsi:type=~ns3:string~>{last_name}</lastName>
              <companyName xsi:type=~ns3:string~>{company}</companyName>
              <phone xsi:type=~ns3:string~>{phone}</phone>
              <jobTitle xsi:type=~ns3:string~>{job_title}</jobTitle>
              <address xsi:type=~ns3:string~>{address}</address>
              <city xsi:type=~ns3:string~>{city}</city>
              <stateProvince xsi:type=~ns3:string~>{state}</stateProvince>
              <postalCode xsi:type=~ns3:string~>{postal_code}</postalCode>
              <country xsi:type=~ns3:string~>{country}</country>
            </ns1:getLicense>
          </ns2:Body>
        </SOAP-ENV:Envelope>".

Definition license_envelope (w : params) : string :=
  py_format envelope_template
            (("0", license_server w) :: ("1", py_str (dossier w)) :: license_options w).

(** ** Device, activation server and the module's state *)

(** Replies of [_is_mcpd_ready_on_device]'s bash call: an output with a
    [commandResult], an output without one, or an exception. *)
Inductive mcpd_reply :=
| McpdRunning
| McpdNoResult
| McpdError.

(** Replies of [unix_rm.exec_cmd]: success, a [UtilError] with its text, or
    any other exception. *)
Inductive rm_reply :=
| RmDone
| RmUtilError (msg : string)
| RmOtherError (msg : string).

(** A POST to the activation server raises, or returns a payload. *)
Inductive response :=
| TransportError
| Payload (r : raw).

(** Calls made to the device through the REST client. *)
Inductive gw_call :=
| LoadRegistration
| GetDossier (args : string)
| BashRun (args : string)
| UnixRm (args : string).

(** [registrationKey] of the loaded registration is [reg_key] ([None] when
    the resource has no key); [/usr/bin/reloadlic] makes it
    [reg_after_reload].  [authority i body] answers the [i]-th POST. *)
Record st := {
  want : params;
  check_mode : bool;
  reg_key : option string;
  reg_after_reload : option string;
  dossier_reply : option string;
  rm_license_reply : rm_reply;
  rm_eula_reply : rm_reply;
  mcpd_replies : list mcpd_reply;
  authority : nat -> string -> response;
  posts : list string;
  log : list gw_call
}.

Definition set_want (w : params) (s : st) : st :=
  {| want := w; check_mode := check_mode s; reg_key := reg_key s;
     reg_after_reload := reg_after_reload s; dossier_reply := dossier_reply s;
     rm_license_reply := rm_license_reply s; rm_eula_reply := rm_eula_reply s;
     mcpd_replies := mcpd_replies s; authority := authority s;
     posts := posts s; log := log s |}.

Definition set_reg_key (k : option string) (s : st) : st :=
  {| want := want s; check_mode := check_mode s; reg_key := k;
     reg_after_reload := reg_after_reload s; dossier_reply := dossier_reply s;
     rm_license_reply := rm_license_reply s; rm_eula_reply := rm_eula_reply s;
     mcpd_replies := mcpd_replies s; authority := authority s;
     posts := posts s; log := log s |}.

Definition set_mcpd_replies (l : list mcpd_reply) (s : st) : st :=
  {| want := want s; check_mode := check_mode s; reg_key := reg_key s;
     reg_after_reload := reg_after_reload s; dossier_reply := dossier_reply s;
     rm_license_reply := rm_license_reply s; rm_eula_reply := rm_eula_reply s;
     mcpd_replies := l; authority := authority s;
     posts := posts s; log := log s |}.

Definition add_post (body : string) (s : st) : st :=
  {| want := want s; check_mode := check_mode s; reg_key := reg_key s;
     reg_after_reload := reg_after_reload s; dossier_reply := dossier_reply s;
     rm_license_reply := rm_license_reply s; rm_eula_reply := rm_eula_reply s;
     mcpd_replies := mcpd_replies s; authority := authority s;
     posts := posts s ++ [body]; log := log s |}.

Definition add_log (calls : list gw_call) (s : st) : st :=
  {| want := want s; check_mode := check_mode s; reg_key := reg_key s;
     reg_after_reload := reg_after_reload s; dossier_reply := dossier_reply s;
     rm_license_reply := rm_license_reply s; rm_eula_reply := rm_eula_reply s;
     mcpd_replies := mcpd_replies s; authority := authority s;
     posts := posts s; log := log s ++ calls |}.

(** ** A state and exception monad *)

Inductive exn :=
| F5ModuleError (msg : option string)
| UtilError (msg : string)
| OtherException (msg : string).

(** [Diverge]: a loop of the source that does not end within the replies
    the state provides (the unbounded [wait_for_mcpd]). *)
Inductive outcome (A : Type) :=
| Ok (a : A)
| Raise (e : exn)
| Diverge.
Arguments Ok {A} a.
Arguments Raise {A} e.
Arguments Diverge {A}.

Definition M (A : Type) : Type := st -> outcome A * st.

Definition ret {A} (a : A) : M A := fun s => (Ok a, s).
Definition raise {A} (e : exn) : M A := fun s => (Raise e, s).
Definition raise_msg {A} (m : string) : M A := raise (F5ModuleError (Some m)).

Definition bind {A B} (m : M A) (k : A -> M B) : M B :=
  fun s =>
    match m s with
    | (Ok a, s') => k a s'
    | (Raise e, s') => (Raise e, s')
    | (Diverge, s') => (Diverge, s')
    end.

Notation "x <- m ;; k" := (bind m (fun x => k))
  (at level 61, m at next level, right associativity).
Notation "m ;;; k" := (bind m (fun _ => k))
  (at level 61, right associativity).

Definition gets {A} (f : st -> A) : M A := fun s => (Ok (f s), s).
Definition modify (f : st -> st) : M unit := fun s => (Ok tt, f s).
Definition call (c : gw_call) : M unit := modify (add_log [c]).

(** ** ModuleManager *)

Module ModuleManager.

(** [re.sub(self.escape_patterns, r'\\\1', text)] with [escape_patterns]
    the character class of the dollar sign, the double quote and the
    single quote: a backslash before every such character. *)
Definition is_escaped_char (c : ascii) : bool :=
  Ascii.eqb c "$"%char || Ascii.eqb c dq_char || Ascii.eqb c "'"%char.

Fixpoint escape (t : string) : string :=
  match t with
  | EmptyString => EmptyString
  | String c r =>
      if is_escaped_char c then String bs_char (String c (escape r))
      else String c (escape r)
  end.

Definition upload_license_cmd (text : string) : string :=
  py_format (tq "-c ~{0}~")
    [("0", py_format ("cat > /config/bigip.license <<EOF" ++ nl ++ "{0}" ++ nl ++ "EOF")
                     [("0", escape text)])].

Definition upload_eula_cmd (text : string) : string :=
  py_format (tq "-c ~{0}~")
    [("0", py_format ("cat > /LICENSE.F5 <<EOF" ++ nl ++ "{0}" ++ nl ++ "EOF")
                     [("0", escape text)])].

Definition reload_cmd : string := py_format (tq "-c ~{0}~") [("0", "/usr/bin/reloadlic")].
Definition mcpd_cmd : string := tq "-c ~tmsh show sys mcp-state | grep running~".

(** [exists]: [resource.registrationKey == self.want.license_key]; a
    missing key makes the comparison false. *)
Definition registration_matches (rk lk : option string) : bool :=
  match rk, lk with
  | Some k, Some l => String.eqb k l
  | _, _ => false
  end.

Definition load_registration : M (option string) :=
  call LoadRegistration ;;; gets reg_key.

Definition exists_ : M bool :=
  rk <- load_registration ;;
  w <- gets want ;;
  ret (registration_matches rk (license_key w)).

Definition any_license_exists : M bool :=
  rk <- load_registration ;;
  ret (match rk with Some _ => true | None => false end).

Definition read_dossier_from_device : M (option string) :=
  w <- gets want ;;
  call (GetDossier (py_format "-b {0}" [("0", py_str (license_key w))])) ;;;
  gets dossier_reply.

Definition bash_run (args : string) : M unit := call (BashRun args).

Definition reload_license : M bool :=
  bash_run reload_cmd ;;;
  modify (fun s => set_reg_key (reg_after_reload s) s) ;;;
  ret true.

(** [wait_for_mcpd]: [nops] counts consecutive positive checks; the loop
    runs while [nops < 4].  [_is_mcpd_ready_on_device] is true only for an
    output with a [commandResult]; it catches every exception and answers
    false, so the outer [except: pass] is never reached. *)
Definition mcpd_threshold : nat := 4.

Definition is_mcpd_ready (r : mcpd_reply) : bool :=
  match r with
  | McpdRunning => true
  | _ => false
  end.

Definition mcpd_step (nops : nat) (r : mcpd_reply) : nat :=
  if is_mcpd_ready r then S nops else 0.

(** The loop from counter [nops] over the replies of successive checks:
    the number of checks made and the replies left, or [None] when the
    replies run out first. *)
Fixpoint mcpd_loop (nops : nat) (replies : list mcpd_reply)
  : option (nat * list mcpd_reply) :=
  if Nat.ltb nops mcpd_threshold then
    match replies with
    | [] => None
    | r :: rest =>
        match mcpd_loop (mcpd_step nops r) rest with
        | Some (k, rem) => Some (S k, rem)
        | None => None
        end
    end
  else Some (0, replies).

Definition wait_for_mcpd : M unit :=
  fun s =>
    match mcpd_loop 0 (mcpd_replies s) with
    | None => (Diverge, s)
    | Some (k, rem) =>
        (Ok tt, add_log (repeat (BashRun mcpd_cmd) k) (set_mcpd_replies rem s))
    end.

(** ** generate_license_from_remote *)

Inductive parsed :=
| ParseRaised (e : exn)
| ParseOtherError
| Parsed (j : LicenseXmlParser.result).

(** [LicenseXmlParser(content=...)] then [.json()]: the constructor turns
    a [ParseError] into an [F5ModuleError]; an exception of [json()] is
    some other exception. *)
Definition parse (r : raw) : parsed :=
  match r with
  | NotWellFormed m =>
      ParseRaised (F5ModuleError (Some ("Provided XML payload is invalid. Received '"
                                         ++ m ++ "'.")))
  | WellFormed root =>
      match LicenseXmlParser.json root with
      | Some j => Parsed j
      | None => ParseOtherError
      end
  end.

Definition post_envelope : M response :=
  fun s =>
    let body := license_envelope (want s) in
    (Ok (authority s (length (posts s)) body), add_post body s).

Definition state_is (j : LicenseXmlParser.result) (v : string) : bool :=
  match LicenseXmlParser.r_state j with
  | Some x => String.eqb x v
  | None => false
  end.

(** The [for x in range(0, 10)] loop with [n] attempts left. *)
Fixpoint gen_loop (n : nat) : M (option LicenseXmlParser.result) :=
  match n with
  | 0 => ret None
  | S n' =>
      resp <- post_envelope ;;
      match resp with
      | TransportError => gen_loop n'
      | Payload r =>
          match parse r with
          | ParseRaised e => raise e
          | ParseOtherError => gen_loop n'
          | Parsed j =>
              if state_is j "EULA_REQUIRED" then
                modify (fun s => set_want (with_eula (want s) (LicenseXmlParser.r_eula j)) s) ;;;
                gen_loop n'
              else if state_is j "LICENSE_RETURNED" then ret (Some j)
              else if state_is j "EMAIL_REQUIRED" then raise_msg "Email must be provided"
              else if state_is j "CONTACT_INFO_REQUIRED" then
                raise_msg "Contact info must be provided"
              else raise (F5ModuleError (LicenseXmlParser.r_fault_text j))
          end
      end
  end.

Definition generate_license_from_remote : M (option LicenseXmlParser.result) :=
  gen_loop 10.

(** ** Installing and removing *)

Definition upload_license_to_device (j : LicenseXmlParser.result) : M bool :=
  match LicenseXmlParser.r_license j with
  | None => raise (OtherException "TypeError")
  | Some t => bash_run (upload_license_cmd t) ;;; ret true
  end.

Definition upload_eula_to_device (j : LicenseXmlParser.result) : M bool :=
  match LicenseXmlParser.r_eula j with
  | None => raise (OtherException "TypeError")
  | Some t => bash_run (upload_eula_cmd t) ;;; ret true
  end.

Definition msg_generate_failed : string :=
  "Failed to generate license from F5 activation servers.".

Definition create_on_device : M unit :=
  lic <- generate_license_from_remote ;;
  match lic with
  | None => raise_msg msg_generate_failed
  | Some j =>
      r1 <- upload_license_to_device j ;;
      if negb r1 then raise_msg "Failed to install license on device." else
      r2 <- upload_eula_to_device j ;;
      if negb r2 then raise_msg "Failed to upload EULA file to device." else
      r3 <- reload_license ;;
      if negb r3 then raise_msg "Failed to reload license configuration." else
      ret tt
  end.

Definition msg_eula_not_accepted : string :=
  "You must read and accept the product EULA to license the box.".

(** [create]; [_set_changed_options] has no effect ([returnables] is
    empty). *)
Definition create : M bool :=
  w <- gets want ;;
  if negb (accept_eula w) then raise_msg msg_eula_not_accepted else
  cm <- gets check_mode ;;
  if cm then ret true else
  d <- read_dossier_from_device ;;
  match d with
  | Some (String _ _ as v) =>
      modify (fun s => set_want (with_dossier (want s) (Some v)) s) ;;;
      create_on_device ;;;
      wait_for_mcpd ;;;
      e <- exists_ ;;
      if negb e then raise_msg "Failed to license the device." else ret true
  | _ => raise_msg "Dossier not generated."
  end.

Definition present : M bool :=
  e <- exists_ ;;
  if e then ret false else create.

Definition license_path : string := "/config/bigip.license".
Definition eula_path : string := "/LICENSE.F5".

(** [remove_license_from_device] and [remove_eula_from_device]: a
    [UtilError] whose text mentions a missing file is success, another
    [UtilError] becomes an [F5ModuleError], any other exception propagates. *)
Definition rm_file (path : string) (reply : st -> rm_reply) : M bool :=
  call (UnixRm path) ;;;
  r <- gets reply ;;
  match r with
  | RmDone => ret true
  | RmUtilError m =>
      if contains "No such file or directory" m then ret true
      else raise (F5ModuleError (Some m))
  | RmOtherError m => raise (OtherException m)
  end.

Definition remove_license_from_device : M bool := rm_file license_path rm_license_reply.
Definition remove_eula_from_device : M bool := rm_file eula_path rm_eula_reply.

Definition remove_from_device : M unit :=
  r1 <- remove_license_from_device ;;
  if negb r1 then raise_msg "Failed to remove license from device." else
  r2 <- remove_eula_from_device ;;
  if negb r2 then raise_msg "Failed to remove EULA file from device." else
  r3 <- reload_license ;;
  if negb r3 then raise_msg "Failed to reload the empty license configuration." else
  ret tt.

Definition remove : M bool :=
  cm <- gets check_mode ;;
  if cm then ret true else
  remove_from_device ;;;
  e <- exists_ ;;
  if e then raise_msg "Failed to delete the resource." else ret true.

Definition absent : M bool :=
  a <- any_license_exists ;;
  if a then
    remove ;;;
    wait_for_mcpd ;;;
    e <- exists_ ;;
    if e then raise_msg "Failed to remove the license from the device." else ret true
  else ret false.

(** Calls that change the device: a bash run other than the readiness
    query (license and EULA writes, reload) and a file removal. *)
Definition is_mutating (c : gw_call) : bool :=
  match c with
  | BashRun a => negb (String.eqb a mcpd_cmd)
  | UnixRm _ => true
  | _ => false
  end.

End ModuleManager.

(** ** Notions used by the statements *)

(** The lines of a text, split at each newline. *)
Fixpoint lines (s : string) : list string :=
  match s with
  | EmptyString => [EmptyString]
  | String c r =>
      if Ascii.eqb c nl_char then EmptyString :: lines r
      else match lines r with
           | [] => [String c EmptyString]
           | l :: ls => String c l :: ls
           end
  end.

(** The heredoc written by [upload_license_to_device] ends at the first line
    equal to its delimiter; the body collides with the delimiter when one of
    its lines is the delimiter. *)
Definition heredoc_delimiter : string := "EOF".

Definition heredoc_collides (body : string) : bool :=
  existsb (String.eqb heredoc_delimiter) (lines body).

(** Every dollar sign, double quote and single quote is preceded by a
    backslash; [prev] is the character before [s]. *)
Fixpoint escaped_ok (prev : option ascii) (s : string) : bool :=
  match s with
  | EmptyString => true
  | String c r =>
      (if ModuleManager.is_escaped_char c
       then match prev with Some p => Ascii.eqb p bs_char | None => false end
       else true) && escaped_ok (Some c) r
  end.

(** Drops the backslash in front of each escaped character. *)
Fixpoint unescape (s : string) : string :=
  match s with
  | String b ((String c r) as r') =>
      if Ascii.eqb b bs_char && ModuleManager.is_escaped_char c
      then String c (unescape r)
      else String b (unescape r')
  | _ => s
  end.

Definition license_cmd_prefix : string :=
  tq "-c ~cat > /config/bigip.license <<EOF" ++ nl.
Definition license_cmd_suffix : string := nl ++ tq "EOF~".

(** A license text with a double quote, a dollar sign and a line [EOF]. *)
Definition eof_license_text : string :=
  dq ++ "$" ++ nl ++ "EOF" ++ nl ++ "rm -rf /config".

(** A text with none of the characters [escape] protects. *)
Fixpoint no_escaped_chars (s : string) : bool :=
  match s with
  | EmptyString => true
  | String c r => negb (ModuleManager.is_escaped_char c) && no_escaped_chars r
  end.

(** The consecutive-success counter after the first [k] readiness checks. *)
Definition nops_after (n k : nat) (l : list mcpd_reply) : nat :=
  fold_left ModuleManager.mcpd_step (firstn k l) n.

Definition flapping_signals : list mcpd_reply :=
  [McpdNoResult; McpdRunning; McpdRunning; McpdNoResult;
   McpdRunning; McpdRunning; McpdRunning; McpdRunning].

(** The [eula] element of the request envelope, around its text. *)
Definition eula_open : string := tq "<eula xsi:type=~ns3:string~>".
Definition eula_close : string := "</eula>".
Definition eula_pre : string := "</dossier>" ++ nl ++ "              ".
Definition eula_post : string :=
  nl ++ "              " ++ tq "<email xsi:type=~ns3:string~>".

(** The opening tag of the [dossier] element of the request envelope. *)
Definition dossier_open : string := tq "<dossier xsi:type=~ns3:string~>".

Definition eula_cmd_prefix : string :=
  tq "-c ~cat > /LICENSE.F5 <<EOF" ++ nl.

(** A removal reply that [remove_license_from_device] and
    [remove_eula_from_device] accept as success. *)
Definition rm_benign (r : rm_reply) : bool :=
  match r with
  | RmDone => true
  | RmUtilError m => contains "No such file or directory" m
  | RmOtherError _ => false
  end.

(** ** Sample inputs *)

Definition xsi_type : string := "{http://www.w3.org/2001/XMLSchema-instance}type".

Definition transaction_state (v : string) : elem :=
  Elem "multiRef" [(xsi_type, "ns2:TransactionState")] (Some v) [].

Definition envelope_of (body : list elem) : elem :=
  Elem "soapenv:Envelope" [] None [Elem "soapenv:Body" [] None body].

Definition doc_eula_required : elem :=
  envelope_of [transaction_state "EULA_REQUIRED";
               Elem "eula" [] (Some "END USER LICENSE AGREEMENT") []].

Definition doc_license_returned : elem :=
  envelope_of [transaction_state "LICENSE_RETURNED";
               Elem "license" [] (Some "Registration Key : ABCDE-FGHIJ") [];
               Elem "eula" [] (Some "END USER LICENSE AGREEMENT") []].

Definition doc_fault : elem :=
  envelope_of [Elem "multiRef" [(xsi_type, "ns3:LicensingFault")] None
                 [Elem "faultNumber" [] (Some "51092") [];
                  Elem "faultText" [] (Some "This license has already been activated") []]].

Definition result_eula_required : LicenseXmlParser.result :=
  {| LicenseXmlParser.r_eula := Some "END USER LICENSE AGREEMENT";
     LicenseXmlParser.r_license := None;
     LicenseXmlParser.r_state := Some "EULA_REQUIRED";
     LicenseXmlParser.r_fault_number := None;
     LicenseXmlParser.r_fault_text := None |}.

Definition result_license_returned : LicenseXmlParser.result :=
  {| LicenseXmlParser.r_eula := Some "END USER LICENSE AGREEMENT";
     LicenseXmlParser.r_license := Some "Registration Key : ABCDE-FGHIJ";
     LicenseXmlParser.r_state := Some "LICENSE_RETURNED";
     LicenseXmlParser.r_fault_number := None;
     LicenseXmlParser.r_fault_text := None |}.

Definition result_fault : LicenseXmlParser.result :=
  {| LicenseXmlParser.r_eula := None;
     LicenseXmlParser.r_license := None;
     LicenseXmlParser.r_state := None;
     LicenseXmlParser.r_fault_number := Some 51092%Z;
     LicenseXmlParser.r_fault_text := Some "This license has already been activated" |}.

Definition sample_want : params :=
  {| license_key := Some "ABCDE-FGHIJ"; license_server := "activate.f5.com";
     accept_eula := true; state := "present"; dossier := Some "DOSSIER";
     eula := None; email := None; first_name := None; last_name := None;
     company := None; phone := None; job_title := None; address := None;
     city := None; postal_code := None; country := None |}.

Definition sample_state (w : params) (reg : option string)
  (rl re : rm_reply) (auth : nat -> string -> response) : st :=
  {| want := w; check_mode := false; reg_key := reg; reg_after_reload := None;
     dossier_reply := Some "DOSSIER"; rm_license_reply := rl; rm_eula_reply := re;
     mcpd_replies := []; authority := auth; posts := []; log := [] |}.

Definition eula_then_license (i : nat) (_ : string) : response :=
  match i with
  | 0 => Payload (WellFormed doc_eula_required)
  | _ => Payload (WellFormed doc_license_returned)
  end.

Definition malformed_then_license (i : nat) (_ : string) : response :=
  match i with
  | 0 => Payload (NotWellFormed "mismatched tag: line 1, column 2")
  | _ => Payload (WellFormed doc_license_returned)
  end.

Definition doc_nil_fault : elem :=
  envelope_of [transaction_state "FAULT";
               Elem "multiRef" [(xsi_type, "ns3:LicensingFault")] None
                 [Elem "faultNumber" [] (Some (nl ++ "    51092" ++ nl)) [];
                  Elem "faultText" [(LicenseXmlParser.xsi_nil, "true")]
                       (Some "ignored") []]].

Definition doc_bad_fault_number : elem :=
  envelope_of [Elem "multiRef" [(xsi_type, "ns3:LicensingFault")] None
                 [Elem "faultNumber" [] (Some "n/a") []]].

Definition doc_email_required : elem :=
  envelope_of [transaction_state "EMAIL_REQUIRED"].

(** * Proofs *)

Lemma str_app_assoc (a b c : string) : (a ++ b) ++ c = a ++ (b ++ c).
Proof. induction a as [|x a IH]; simpl; [reflexivity | now rewrite IH]. Qed.

Lemma str_app_nil_r (a : string) : a ++ EmptyString = a.
Proof. induction a as [|x a IH]; simpl; [reflexivity | now rewrite IH]. Qed.

Section Mcpd.
Import ModuleManager.

Lemma mcpd_loop_spec (l : list mcpd_reply) : forall n k rem,
  mcpd_loop n l = Some (k, rem) <->
  (k <= length l /\ rem = skipn k l /\ mcpd_threshold <= nops_after n k l /\
   forall m, m < k -> nops_after n m l < mcpd_threshold).
Proof.
  unfold nops_after.
  induction l as [|r rest IH]; intros n k rem; simpl.
  - destruct (Nat.ltb_spec n mcpd_threshold) as [Hlt|Hge].
    + split; [discriminate|].
      intros (Hk & _ & Hth & _). assert (k = 0) by (simpl in Hk; lia); subst.
      simpl in Hth. lia.
    + split.
      * intros H; inversion H; subst. simpl. repeat split; try lia.
      * intros (Hk & Hrem & _). assert (k = 0) by (simpl in Hk; lia); subst.
        reflexivity.
  - destruct (Nat.ltb_spec n mcpd_threshold) as [Hlt|Hge].
    + specialize (IH (mcpd_step n r)).
      destruct (mcpd_loop (mcpd_step n r) rest) as [[k' rem']|] eqn:E.
      * pose proof (proj1 (IH k' rem') eq_refl) as (Hk' & Hrem' & Hth' & Hlt').
        split.
        -- intros H; inversion H; subst. simpl.
           repeat split; try lia; try assumption.
           intros [|m] Hm; simpl; [assumption|]. apply Hlt'. lia.
        -- intros (Hk & Hrem & Hth & Hm).
           destruct k as [|k]; [simpl in Hth; lia|].
           simpl in Hk, Hrem, Hth.
           assert (Hk'' : Some (k', rem') = Some (k, rem)).
           { apply IH. repeat split; try lia; try assumption.
             intros m Hmk. apply (Hm (S m)). lia. }
           inversion Hk''; subst. reflexivity.
      * split; [discriminate|].
        intros (Hk & Hrem & Hth & Hm).
        destruct k as [|k]; [simpl in Hth; lia|].
        simpl in Hk, Hrem, Hth.
        assert (Hk'' : None = Some (k, rem)).
        { apply IH. repeat split; try lia; try assumption.
          intros m Hmk. apply (Hm (S m)). lia. }
        discriminate.
    + split.
      * intros H; inversion H; subst. simpl. repeat split; try lia.
      * intros (Hk & Hrem & Hth & Hm).
        destruct k as [|k]; [subst; reflexivity|].
        specialize (Hm 0 ltac:(lia)). simpl in Hm. lia.
Qed.

End Mcpd.

Section Escaping.
Import ModuleManager.

Lemma lines_nonempty (s : string) : lines s <> [].
Proof.
  induction s as [|c r IH]; simpl; [discriminate|].
  destruct (Ascii.eqb c nl_char); [discriminate|].
  destruct (lines r); discriminate.
Qed.

Lemma escape_head (r : string) (d : ascii) (r2 : string) :
  escape r = String d r2 -> is_escaped_char d = false.
Proof.
  destruct r as [|c r]; simpl; [discriminate|].
  destruct (is_escaped_char c) eqn:E; intros H; inversion H; subst; auto.
Qed.

Lemma escaped_ok_escape (t : string) : forall prev, escaped_ok prev (escape t) = true.
Proof.
  induction t as [|c r IH]; intros prev; simpl; [reflexivity|].
  destruct (is_escaped_char c) eqn:E; simpl.
  - rewrite E. simpl. apply IH.
  - rewrite E. simpl. apply IH.
Qed.

Lemma unescape_cons (b c : ascii) (r : string) :
  unescape (String b (String c r)) =
  if Ascii.eqb b bs_char && is_escaped_char c
  then String c (unescape r) else String b (unescape (String c r)).
Proof. reflexivity. Qed.

Lemma unescape_escape (t : string) : unescape (escape t) = t.
Proof.
  induction t as [|c r IH]; simpl; [reflexivity|].
  destruct (is_escaped_char c) eqn:E.
  - simpl. rewrite E. simpl. now rewrite IH.
  - destruct (escape r) as [|d r2] eqn:Er.
    + simpl in IH. subst r. reflexivity.
    + rewrite unescape_cons, (escape_head r d r2 Er), andb_false_r.
      now rewrite IH.
Qed.

Lemma lines_escape (t : string) : lines (escape t) = map escape (lines t).
Proof.
  induction t as [|c r IH]; [reflexivity|].
  simpl escape. simpl lines at 2.
  destruct (is_escaped_char c) eqn:E.
  - assert (Ascii.eqb c nl_char = false) as Hc.
    { destruct (Ascii.eqb_spec c nl_char); [subst; discriminate | reflexivity]. }
    rewrite Hc. simpl. rewrite Hc. rewrite IH.
    destruct (lines r) as [|l0 ls] eqn:El; [exfalso; exact (lines_nonempty r El)|].
    simpl. now rewrite E.
  - simpl. destruct (Ascii.eqb c nl_char) eqn:Hc.
    + simpl. now rewrite IH.
    + rewrite IH.
      destruct (lines r) as [|l0 ls] eqn:El; [exfalso; exact (lines_nonempty r El)|].
      simpl. now rewrite E.
Qed.

Lemma escape_plain (s : string) : no_escaped_chars s = true -> escape s = s.
Proof.
  induction s as [|c r IH]; simpl; [reflexivity|].
  intros H. apply andb_true_iff in H as [Hc Hr].
  destruct (is_escaped_char c); [discriminate|]. now rewrite IH.
Qed.

Lemma escape_inj_plain (l : string) : forall s,
  escape l = s -> no_escaped_chars s = true -> l = s.
Proof.
  induction l as [|c r IH]; intros s H P; simpl in H; [exact H|].
  destruct (is_escaped_char c) eqn:E; subst s; simpl in P.
  - rewrite E in P. simpl in P. discriminate.
  - rewrite E in P. simpl in P. f_equal. now apply IH.
Qed.

Lemma heredoc_collides_escape (t : string) :
  heredoc_collides (escape t) = true <-> In heredoc_delimiter (lines t).
Proof.
  unfold heredoc_collides. rewrite existsb_exists, lines_escape.
  split.
  - intros (x & Hin & Hx). apply String.eqb_eq in Hx. subst x.
    apply in_map_iff in Hin as (l & Hl & Hin).
    apply escape_inj_plain in Hl; [subst; exact Hin | reflexivity].
  - intros Hin. exists heredoc_delimiter. split; [|apply String.eqb_refl].
    apply in_map_iff. exists heredoc_delimiter. split; [|exact Hin].
    apply escape_plain. reflexivity.
Qed.

Lemma upload_license_cmd_shape (t : string) :
  upload_license_cmd t = license_cmd_prefix ++ escape t ++ license_cmd_suffix.
Proof.
  unfold upload_license_cmd, py_format, license_cmd_prefix, license_cmd_suffix; cbn.
  rewrite !str_app_assoc. reflexivity.
Qed.

End Escaping.

Section Envelope.

Lemma render_app (args : list (string * string)) (ps1 ps2 : list piece) :
  render args (app ps1 ps2) = render args ps1 ++ render args ps2.
Proof.
  induction ps1 as [|[l|f] ps1 IH]; simpl; [reflexivity| |];
    rewrite IH; now rewrite str_app_assoc.
Qed.

Lemma envelope_template_tokens :
  tokens envelope_template =
  app (firstn 4 (tokens envelope_template))
    (app [Lit (eula_pre ++ eula_open); Field "eula"; Lit (eula_close ++ eula_post)]
         (skipn 7 (tokens envelope_template))).
Proof. vm_compute. reflexivity. Qed.

Lemma license_envelope_eula (w : params) :
  exists pre post,
    license_envelope w = pre ++ eula_open ++ or_empty (eula w) ++ eula_close ++ post.
Proof.
  unfold license_envelope, py_format.
  rewrite envelope_template_tokens, !render_app.
  set (args := ("0", license_server w) :: ("1", py_str (dossier w)) :: license_options w).
  exists (render args (firstn 4 (tokens envelope_template)) ++ eula_pre).
  exists (eula_post ++ render args (skipn 7 (tokens envelope_template))).
  assert (Hl : lookup "eula" args = or_empty (eula w)) by reflexivity.
  cbn [render]. rewrite Hl, str_app_nil_r.
  rewrite !str_app_assoc. reflexivity.
Qed.

End Envelope.

Section Negotiation.
Import ModuleManager.

Lemma gen_loop_S (n : nat) (s : st) :
  gen_loop (S n) s =
  let body := license_envelope (want s) in
  let s1 := add_post body s in
  match authority s (length (posts s)) body with
  | TransportError => gen_loop n s1
  | Payload r =>
      match parse r with
      | ParseRaised e => (Raise e, s1)
      | ParseOtherError => gen_loop n s1
      | Parsed j =>
          if state_is j "EULA_REQUIRED" then
            gen_loop n (set_want (with_eula (want s1) (LicenseXmlParser.r_eula j)) s1)
          else if state_is j "LICENSE_RETURNED" then (Ok (Some j), s1)
          else if state_is j "EMAIL_REQUIRED" then
            (Raise (F5ModuleError (Some "Email must be provided")), s1)
          else if state_is j "CONTACT_INFO_REQUIRED" then
            (Raise (F5ModuleError (Some "Contact info must be provided")), s1)
          else (Raise (F5ModuleError (LicenseXmlParser.r_fault_text j)), s1)
      end
  end.
Proof.
  simpl. unfold bind at 1, post_envelope. simpl.
  destruct (authority s (length (posts s)) (license_envelope (want s))) as [|r];
    [reflexivity|].
  destruct (parse r) as [e| |j]; try reflexivity.
  unfold bind, modify, raise_msg, raise, ret.
  destruct (state_is j "EULA_REQUIRED"); [reflexivity|].
  destruct (state_is j "LICENSE_RETURNED"); [reflexivity|].
  destruct (state_is j "EMAIL_REQUIRED"); [reflexivity|].
  destruct (state_is j "CONTACT_INFO_REQUIRED"); reflexivity.
Qed.

Lemma gen_loop_transport_errors (n : nat) : forall s,
  (forall i b, authority s i b = TransportError) ->
  exists s', gen_loop n s = (Ok None, s') /\
    length (posts s') = length (posts s) + n /\
    log s' = log s /\ want s' = want s /\ authority s' = authority s.
Proof.
  induction n as [|n IH]; intros s H.
  - exists s. simpl. repeat split; lia.
  - rewrite gen_loop_S. cbv zeta. rewrite H.
    destruct (IH (add_post (license_envelope (want s)) s) H)
      as (s' & E & Hl & Hlog & Hw & Ha).
    exists s'. rewrite E. simpl in Hl. rewrite length_app in Hl. simpl in Hl.
    repeat split; try assumption; lia.
Qed.

Lemma gen_loop_returned (n : nat) : forall s s' j,
  gen_loop n s = (Ok (Some j), s') ->
  state_is j "LICENSE_RETURNED" = true /\
  authority s' = authority s /\
  exists i d, i < length (posts s') /\
    authority s i (nth i (posts s') EmptyString) = Payload (WellFormed d) /\
    LicenseXmlParser.json d = Some j.
Proof.
  induction n as [|n IH]; intros s s' j H; [discriminate|].
  rewrite gen_loop_S in H. cbv zeta in H.
  set (body := license_envelope (want s)) in *.
  destruct (authority s (length (posts s)) body) as [|r] eqn:Ea.
  - apply IH in H as (Hs & Ha & i & d & Hi & Hd & Hj).
    repeat split; [assumption|assumption|]. exists i, d. auto.
  - destruct r as [m|root] eqn:Er; simpl in H; [discriminate|].
    destruct (LicenseXmlParser.json root) as [j'|] eqn:Ej.
    + destruct (state_is j' "EULA_REQUIRED") eqn:S1.
      * apply IH in H as (Hs & Ha & i & d & Hi & Hd & Hj).
        repeat split; [assumption|assumption|]. exists i, d. auto.
      * destruct (state_is j' "LICENSE_RETURNED") eqn:S2.
        -- inversion H; subst. repeat split; [assumption|].
           exists (length (posts s)), root. simpl.
           rewrite length_app, app_nth2, Nat.sub_diag by lia. simpl.
           repeat split; [lia| |]; assumption.
        -- destruct (state_is j' "EMAIL_REQUIRED"); [discriminate|].
           destruct (state_is j' "CONTACT_INFO_REQUIRED"); discriminate.
    + apply IH in H as (Hs & Ha & i & d & Hi & Hd & Hj).
      repeat split; [assumption|assumption|]. exists i, d. auto.
Qed.

End Negotiation.

(** * Claims *)

Section ParserFacts.
Import LicenseXmlParser.

Lemma fault_fields_none (cs : list elem) : forall acc,
  fault_fields cs acc = None <->
  exists c, In c cs /\ tag c = "faultNumber" /\ py_int (text c) = None.
Proof.
  induction cs as [|c cs IH]; intros acc; simpl.
  - split; [discriminate|]. intros (c & [] & _).
  - destruct (String.eqb_spec (tag c) "faultNumber") as [Hn|Hn].
    + destruct (py_int (text c)) as [z|] eqn:Ez.
      * rewrite IH. split.
        -- intros (c' & Hin & Ht & Hp). exists c'. auto.
        -- intros (c' & [<-|Hin] & Ht & Hp); [congruence|]. exists c'. auto.
      * split; [intros _; exists c; auto | reflexivity].
    + destruct (String.eqb (tag c) "faultText").
      * rewrite IH. split.
        -- intros (c' & Hin & Ht & Hp). exists c'. auto.
        -- intros (c' & [<-|Hin] & Ht & Hp); [congruence|]. exists c'. auto.
      * rewrite IH. split.
        -- intros (c' & Hin & Ht & Hp). exists c'. auto.
        -- intros (c' & [<-|Hin] & Ht & Hp); [congruence|]. exists c'. auto.
Qed.

Lemma json_bad_fault_number (root r c : elem) :
  find_element "LicensingFault" root = Some r -> In c (children r) ->
  tag c = "faultNumber" -> py_int (text c) = None ->
  json root = None.
Proof.
  intros Hr Hin Ht Hp. unfold json, fault_number, fault_text, get_fault. rewrite Hr.
  assert (Hn : fault_fields (children r) {| f_number := None; f_text := None |} = None)
    by (apply fault_fields_none; eauto).
  now rewrite Hn.
Qed.

End ParserFacts.

Section Claims.
Import ModuleManager.

(** C1 (as stated): a payload that is not well-formed does not end the
    attempt loop; the loop goes on with the next attempt. *)
Lemma C1_malformed_not_retried :
  ~ (forall n s m,
       authority s (length (posts s)) (license_envelope (want s))
         = Payload (NotWellFormed m) ->
       gen_loop (S (S n)) s
         = gen_loop (S n) (add_post (license_envelope (want s)) s)).
Proof.
  intros H.
  specialize (H 8 (sample_state sample_want None RmDone RmDone malformed_then_license)
                "mismatched tag: line 1, column 2" eq_refl).
  vm_compute in H. discriminate H.
Qed.

(** C1 (amended): a payload that is not well-formed ends negotiation at
    once with the [F5ModuleError] raised by [LicenseXmlParser]; the loop
    makes no further POST. *)
Theorem C1_malformed_aborts (n : nat) (s : st) (m : string) :
  authority s (length (posts s)) (license_envelope (want s)) = Payload (NotWellFormed m) ->
  gen_loop (S n) s =
    (Raise (F5ModuleError (Some ("Provided XML payload is invalid. Received '"
                                  ++ m ++ "'."))),
     add_post (license_envelope (want s)) s).
Proof. intros H. rewrite gen_loop_S. cbv zeta. now rewrite H. Qed.

Lemma C1_malformed_aborts_witness :
  gen_loop 10 (sample_state sample_want None RmDone RmDone malformed_then_license) =
    (Raise (F5ModuleError (Some ("Provided XML payload is invalid. Received '"
                                  ++ "mismatched tag: line 1, column 2" ++ "'."))),
     add_post (license_envelope sample_want)
              (sample_state sample_want None RmDone RmDone malformed_then_license)).
Proof. apply (C1_malformed_aborts 9). reflexivity. Defined.

(** C2: against a server whose every POST raises, negotiation makes
    exactly 10 POSTs, [generate_license_from_remote] returns [None] and
    [create_on_device] fails with "Failed to generate license from F5
    activation servers." without touching the device. *)
Theorem C2_transport_errors_exhaust (s : st) :
  (forall i b, authority s i b = TransportError) ->
  (exists s', generate_license_from_remote s = (Ok None, s') /\
              length (posts s') = length (posts s) + 10) /\
  (exists s', create_on_device s = (Raise (F5ModuleError (Some msg_generate_failed)), s') /\
              length (posts s') = length (posts s) + 10 /\ log s' = log s).
Proof.
  intros H.
  destruct (gen_loop_transport_errors 10 s H) as (s' & E & Hl & Hlog & _).
  split.
  - exists s'. split; assumption.
  - exists s'. unfold create_on_device, bind. unfold generate_license_from_remote.
    rewrite E. repeat split; assumption.
Qed.

Lemma C2_transport_errors_exhaust_witness :
  (forall i b, authority (sample_state sample_want None RmDone RmDone
                            (fun _ _ => TransportError)) i b = TransportError) /\
  exists s', create_on_device (sample_state sample_want None RmDone RmDone
                                 (fun _ _ => TransportError))
             = (Raise (F5ModuleError (Some msg_generate_failed)), s') /\
             length (posts s') = 10 /\ log s' = [].
Proof.
  split; [reflexivity|].
  apply (C2_transport_errors_exhaust
           (sample_state sample_want None RmDone RmDone (fun _ _ => TransportError))).
  reflexivity.
Defined.

(** C3: when the server answers the first POST with [EULA_REQUIRED] and
    some EULA text [e], and the second with [LICENSE_RETURNED],
    negotiation makes exactly 2 POSTs and the second envelope carries [e]
    in its [eula] element. *)
Theorem C3_eula_round_trip (s : st) (d1 d2 : elem)
    (j1 j2 : LicenseXmlParser.result) (e : string) :
  (forall b, authority s (length (posts s)) b = Payload (WellFormed d1)) ->
  (forall b, authority s (S (length (posts s))) b = Payload (WellFormed d2)) ->
  LicenseXmlParser.json d1 = Some j1 ->
  LicenseXmlParser.r_state j1 = Some "EULA_REQUIRED" ->
  LicenseXmlParser.r_eula j1 = Some e ->
  LicenseXmlParser.json d2 = Some j2 ->
  LicenseXmlParser.r_state j2 = Some "LICENSE_RETURNED" ->
  exists s',
    generate_license_from_remote s = (Ok (Some j2), s') /\
    posts s' = app (posts s) [license_envelope (want s);
                              license_envelope (with_eula (want s) (Some e))] /\
    exists pre post,
      license_envelope (with_eula (want s) (Some e))
        = pre ++ eula_open ++ e ++ eula_close ++ post.
Proof.
  intros H1 H2 Hj1 Hs1 He Hj2 Hs2.
  unfold generate_license_from_remote. rewrite gen_loop_S. cbv zeta.
  rewrite H1. simpl parse. rewrite Hj1.
  unfold state_is at 1. rewrite Hs1. simpl String.eqb. cbv iota.
  rewrite gen_loop_S. cbv zeta. simpl posts. simpl authority.
  rewrite length_app. simpl length. rewrite Nat.add_1_r, H2.
  simpl parse. rewrite Hj2.
  assert (E1 : state_is j2 "EULA_REQUIRED" = false)
    by (unfold state_is; now rewrite Hs2).
  assert (E2 : state_is j2 "LICENSE_RETURNED" = true)
    by (unfold state_is; now rewrite Hs2).
  rewrite E1, E2, He.
  eexists. split; [reflexivity|]. split.
  - simpl. rewrite <- app_assoc. reflexivity.
  - exact (license_envelope_eula (with_eula (want s) (Some e))).
Qed.

Lemma C3_eula_round_trip_witness :
  exists s',
    generate_license_from_remote
      (sample_state sample_want None RmDone RmDone eula_then_license)
      = (Ok (Some result_license_returned), s') /\
    posts s' = [license_envelope sample_want;
                 license_envelope (with_eula sample_want
                                     (Some "END USER LICENSE AGREEMENT"))] /\
    exists pre post,
      license_envelope (with_eula sample_want (Some "END USER LICENSE AGREEMENT"))
        = pre ++ eula_open ++ "END USER LICENSE AGREEMENT" ++ eula_close ++ post.
Proof.
  apply (C3_eula_round_trip
           (sample_state sample_want None RmDone RmDone eula_then_license)
           doc_eula_required doc_license_returned
           result_eula_required result_license_returned
           "END USER LICENSE AGREEMENT");
    reflexivity.
Defined.

(** C4: on the readiness replies [fail, ok, ok, fail, ok, ok, ok, ok]
    [wait_for_mcpd] makes exactly 8 checks and ends; a negative reply or a
    failed query resets the counter to 0; and the loop ends after [k]
    checks exactly when the counter reaches the threshold 4 at check [k]
    and stays below it before. *)
Theorem C4_wait_for_mcpd_debounce :
  mcpd_loop 0 flapping_signals = Some (8, []) /\
  (forall s,
     wait_for_mcpd (set_mcpd_replies flapping_signals s)
       = (Ok tt, add_log (repeat (BashRun mcpd_cmd) 8)
                         (set_mcpd_replies [] (set_mcpd_replies flapping_signals s)))) /\
  (forall n, mcpd_step n McpdNoResult = 0 /\ mcpd_step n McpdError = 0 /\
             mcpd_step n McpdRunning = S n) /\
  (forall l k rem,
     mcpd_loop 0 l = Some (k, rem) <->
     (k <= length l /\ rem = skipn k l /\ mcpd_threshold <= nops_after 0 k l /\
      forall m, m < k -> nops_after 0 m l < mcpd_threshold)).
Proof.
  split; [reflexivity|]. split; [reflexivity|].
  split; [intros n; repeat split|].
  intros l k rem. apply mcpd_loop_spec.
Qed.

Lemma C4_wait_for_mcpd_debounce_witness :
  mcpd_loop 0 [McpdRunning; McpdRunning; McpdRunning; McpdRunning] = Some (4, []) /\
  nops_after 0 4 [McpdRunning; McpdRunning; McpdRunning; McpdRunning] = 4.
Proof.
  split; [|reflexivity].
  apply (proj2 (proj2 (proj2 C4_wait_for_mcpd_debounce))
           [McpdRunning; McpdRunning; McpdRunning; McpdRunning] 4 []).
  repeat split; try (vm_compute; lia).
  intros m Hm. destruct m as [|[|[|[|m]]]]; vm_compute; lia.
Defined.

(** C5: when the registration key does not match the license key and the
    EULA is not accepted, [present] fails with the EULA error; the only
    device call made before is the read of the registration, so nothing
    on the device changes. *)
Theorem C5_present_requires_eula (s : st) :
  accept_eula (want s) = false ->
  registration_matches (reg_key s) (license_key (want s)) = false ->
  exists s' new,
    present s = (Raise (F5ModuleError (Some msg_eula_not_accepted)), s') /\
    log s' = app (log s) new /\
    forallb (fun c => negb (is_mutating c)) new = true /\
    reg_key s' = reg_key s /\ reg_after_reload s' = reg_after_reload s /\
    posts s' = posts s.
Proof.
  intros Ha Hr.
  exists (add_log [LoadRegistration] s), [LoadRegistration].
  unfold present, exists_, load_registration, create, call, modify, gets, bind, ret.
  simpl. rewrite Hr. simpl. rewrite Ha. simpl.
  repeat split; reflexivity.
Qed.

Lemma C5_present_requires_eula_witness :
  exists s' new,
    present (sample_state (with_eula {| license_key := Some "ABCDE-FGHIJ";
                                       license_server := "activate.f5.com";
                                       accept_eula := false; state := "present";
                                       dossier := None; eula := None; email := None;
                                       first_name := None; last_name := None;
                                       company := None; phone := None;
                                       job_title := None; address := None;
                                       city := None; postal_code := None;
                                       country := None |} None)
                                    (Some "OTHER-KEY") RmDone RmDone
                                    (fun _ _ => TransportError))
      = (Raise (F5ModuleError (Some msg_eula_not_accepted)), s') /\
    log s' = app [] new /\
    forallb (fun c => negb (is_mutating c)) new = true /\
    reg_key s' = Some "OTHER-KEY" /\ reg_after_reload s' = None /\ posts s' = [].
Proof. apply C5_present_requires_eula; reflexivity. Defined.

(** C6: when the device has no registration key, [absent] returns
    [changed = false] after reading the registration only: no write, no
    removal, no reload. *)
Theorem C6_absent_without_registration (s : st) :
  reg_key s = None ->
  exists s' new,
    absent s = (Ok false, s') /\
    log s' = app (log s) new /\
    forallb (fun c => negb (is_mutating c)) new = true /\
    reg_key s' = reg_key s.
Proof.
  intros Hr.
  exists (add_log [LoadRegistration] s), [LoadRegistration].
  unfold absent, any_license_exists, load_registration, call, modify, gets, bind, ret.
  simpl. rewrite Hr. repeat split; reflexivity.
Qed.

Lemma C6_absent_without_registration_witness :
  exists s' new,
    absent (sample_state sample_want None RmDone RmDone (fun _ _ => TransportError))
      = (Ok false, s') /\
    log s' = app [] new /\
    forallb (fun c => negb (is_mutating c)) new = true /\
    reg_key s' = None.
Proof. apply C6_absent_without_registration; reflexivity. Defined.

(** C7: negotiation returns a license only for a response whose
    transaction state is [LICENSE_RETURNED]: the returned record is the
    parse of a well-formed payload the server sent to one of the POSTs. *)
Theorem C7_license_only_from_returned (s s' : st) (j : LicenseXmlParser.result) :
  generate_license_from_remote s = (Ok (Some j), s') ->
  LicenseXmlParser.r_state j = Some "LICENSE_RETURNED" /\
  exists i d, i < length (posts s') /\
    authority s i (nth i (posts s') EmptyString) = Payload (WellFormed d) /\
    LicenseXmlParser.json d = Some j.
Proof.
  intros H. apply gen_loop_returned in H as (Hs & _ & Hex).
  split; [|exact Hex].
  unfold state_is in Hs.
  destruct (LicenseXmlParser.r_state j) as [v|]; [|discriminate].
  apply String.eqb_eq in Hs. now subst.
Qed.

Lemma C7_license_only_from_returned_witness :
  LicenseXmlParser.r_state result_license_returned = Some "LICENSE_RETURNED" /\
  exists i d,
    i < length (posts (snd (generate_license_from_remote
             (sample_state sample_want None RmDone RmDone eula_then_license)))) /\
    eula_then_license i
      (nth i (posts (snd (generate_license_from_remote
             (sample_state sample_want None RmDone RmDone eula_then_license)))) EmptyString)
      = Payload (WellFormed d) /\
    LicenseXmlParser.json d = Some result_license_returned.
Proof.
  apply (C7_license_only_from_returned
           (sample_state sample_want None RmDone RmDone eula_then_license)).
  rewrite (surjective_pairing (generate_license_from_remote _)) at 1.
  f_equal; vm_compute; reflexivity.
Defined.

(** C8 (as stated): for a license text with a double quote and a dollar
    sign, the heredoc body of the write command has each dollar sign,
    double quote and single quote preceded by a backslash, and no line of
    the body collides with the heredoc delimiter. *)
Lemma C8_heredoc_delimiter_collision :
  ~ (forall t,
       contains dq t = true -> contains "$" t = true ->
       upload_license_cmd t = license_cmd_prefix ++ escape t ++ license_cmd_suffix /\
       escaped_ok None (escape t) = true /\
       heredoc_collides (escape t) = false).
Proof.
  intros H.
  destruct (H eof_license_text eq_refl eq_refl) as (_ & _ & Hc).
  vm_compute in Hc. discriminate Hc.
Qed.

(** C8 (amended): the write command is the heredoc prefix, the escaped
    license text and the terminator; in the escaped text every dollar
    sign, double quote and single quote is preceded by a backslash, and
    dropping those backslashes gives the license text back.  The
    delimiter is not guarded: the body collides with [EOF] exactly when
    the license text has a line [EOF]. *)
Theorem C8_upload_license_escaping (t : string) :
  upload_license_cmd t = license_cmd_prefix ++ escape t ++ license_cmd_suffix /\
  escaped_ok None (escape t) = true /\
  unescape (escape t) = t /\
  (heredoc_collides (escape t) = true <-> In heredoc_delimiter (lines t)).
Proof.
  split; [apply upload_license_cmd_shape|].
  split; [apply escaped_ok_escape|].
  split; [apply unescape_escape|].
  apply heredoc_collides_escape.
Qed.

(** C9: a missing file reported by either removal counts as success and
    removal goes on to the reload; any other removal error aborts
    [remove_from_device] at once, with no later device call. *)
Theorem C9_remove_missing_file_is_success (s : st) :
  (rm_benign (rm_license_reply s) = true -> rm_benign (rm_eula_reply s) = true ->
   exists s', remove_from_device s = (Ok tt, s') /\
     log s' = app (log s) [UnixRm license_path; UnixRm eula_path; BashRun reload_cmd] /\
     reg_key s' = reg_after_reload s) /\
  (rm_benign (rm_license_reply s) = false ->
   exists e s', remove_from_device s = (Raise e, s') /\
     log s' = app (log s) [UnixRm license_path]) /\
  (rm_benign (rm_license_reply s) = true -> rm_benign (rm_eula_reply s) = false ->
   exists e s', remove_from_device s = (Raise e, s') /\
     log s' = app (log s) [UnixRm license_path; UnixRm eula_path]).
Proof.
  unfold remove_from_device, remove_license_from_device, remove_eula_from_device,
    rm_file, reload_license, bash_run, call, modify, gets, bind, ret, raise_msg, raise.
  simpl. unfold rm_benign.
  split; [|split]; intros.
  - destruct (rm_license_reply s) as [|m1|m1];
      try destruct (contains "No such file or directory" m1); try discriminate;
      simpl;
      destruct (rm_eula_reply s) as [|m2|m2];
      try destruct (contains "No such file or directory" m2); try discriminate;
      eexists; (split; [reflexivity|]); simpl; rewrite <- ?app_assoc; split; reflexivity.
  - destruct (rm_license_reply s) as [|m1|m1];
      try destruct (contains "No such file or directory" m1); try discriminate;
      do 2 eexists; split; reflexivity.
  - destruct (rm_license_reply s) as [|m1|m1];
      try destruct (contains "No such file or directory" m1); try discriminate;
      simpl;
      destruct (rm_eula_reply s) as [|m2|m2];
      try destruct (contains "No such file or directory" m2); try discriminate;
      do 2 eexists; (split; [reflexivity|]); simpl; rewrite <- ?app_assoc; reflexivity.
Qed.

Lemma C9_remove_missing_file_is_success_witness :
  exists s',
    remove_from_device
      (sample_state sample_want (Some "ABCDE-FGHIJ")
         (RmUtilError "rm: cannot remove '/config/bigip.license': No such file or directory")
         RmDone (fun _ _ => TransportError)) = (Ok tt, s') /\
    log s' = app [] [UnixRm license_path; UnixRm eula_path; BashRun reload_cmd] /\
    reg_key s' = None.
Proof.
  apply (proj1 (C9_remove_missing_file_is_success
           (sample_state sample_want (Some "ABCDE-FGHIJ")
              (RmUtilError "rm: cannot remove '/config/bigip.license': No such file or directory")
              RmDone (fun _ _ => TransportError)))); reflexivity.
Defined.

Lemma state_is_some (j : LicenseXmlParser.result) (v : string) :
  state_is j v = true -> LicenseXmlParser.r_state j = Some v.
Proof.
  unfold state_is. destruct (LicenseXmlParser.r_state j) as [x|]; [|discriminate].
  intros H. apply String.eqb_eq in H. now subst.
Qed.

(** C10: a well-formed response that [json()] reads without raising, with
    a transaction state that is absent or none of the four known ones,
    ends negotiation at that response with an [F5ModuleError] carrying the
    parsed fault text (possibly [None]); no further POST is made.  A
    well-formed response whose [LicensingFault] block has a [faultNumber]
    child with a text [int()] rejects makes [json()] raise some other
    exception instead, and the loop goes on to its next attempt. *)
Theorem C10_unknown_state_aborts (n : nat) (s : st) (d : elem) :
  authority s (length (posts s)) (license_envelope (want s)) = Payload (WellFormed d) ->
  (forall j : LicenseXmlParser.result,
     LicenseXmlParser.json d = Some j ->
     ~ In (LicenseXmlParser.r_state j)
          [Some "EULA_REQUIRED"; Some "LICENSE_RETURNED";
           Some "EMAIL_REQUIRED"; Some "CONTACT_INFO_REQUIRED"] ->
     gen_loop (S n) s =
       (Raise (F5ModuleError (LicenseXmlParser.r_fault_text j)),
        add_post (license_envelope (want s)) s)) /\
  (forall r c : elem,
     LicenseXmlParser.find_element "LicensingFault" d = Some r ->
     In c (children r) -> tag c = "faultNumber" -> py_int (text c) = None ->
     gen_loop (S n) s = gen_loop n (add_post (license_envelope (want s)) s)).
Proof.
  intros Ha. split.
  - intros j Hj Hn.
    rewrite gen_loop_S. cbv zeta. rewrite Ha. simpl parse. rewrite Hj.
    destruct (state_is j "EULA_REQUIRED") eqn:E1;
      [apply state_is_some in E1; exfalso; apply Hn; rewrite E1; simpl; tauto|].
    destruct (state_is j "LICENSE_RETURNED") eqn:E2;
      [apply state_is_some in E2; exfalso; apply Hn; rewrite E2; simpl; tauto|].
    destruct (state_is j "EMAIL_REQUIRED") eqn:E3;
      [apply state_is_some in E3; exfalso; apply Hn; rewrite E3; simpl; tauto|].
    destruct (state_is j "CONTACT_INFO_REQUIRED") eqn:E4;
      [apply state_is_some in E4; exfalso; apply Hn; rewrite E4; simpl; tauto|].
    reflexivity.
  - intros r c Hr Hin Ht Hp.
    rewrite gen_loop_S. cbv zeta. rewrite Ha. simpl parse.
    now rewrite (json_bad_fault_number d r c Hr Hin Ht Hp).
Qed.

Lemma C10_unknown_state_aborts_witness :
  gen_loop 10 (sample_state sample_want None RmDone RmDone
                 (fun _ _ => Payload (WellFormed doc_fault))) =
    (Raise (F5ModuleError (Some "This license has already been activated")),
     add_post (license_envelope sample_want)
       (sample_state sample_want None RmDone RmDone
          (fun _ _ => Payload (WellFormed doc_fault)))) /\
  gen_loop 10 (sample_state sample_want None RmDone RmDone
                 (fun _ _ => Payload (WellFormed doc_bad_fault_number))) =
    gen_loop 9 (add_post (license_envelope sample_want)
                  (sample_state sample_want None RmDone RmDone
                     (fun _ _ => Payload (WellFormed doc_bad_fault_number)))).
Proof.
  split.
  - apply (proj1 (C10_unknown_state_aborts 9
                    (sample_state sample_want None RmDone RmDone
                       (fun _ _ => Payload (WellFormed doc_fault)))
                    doc_fault eq_refl) result_fault).
    + vm_compute. reflexivity.
    + vm_compute. intros [H|[H|[H|[H|H]]]]; discriminate || contradiction.
  - apply (proj2 (C10_unknown_state_aborts 9
                    (sample_state sample_want None RmDone RmDone
                       (fun _ _ => Payload (WellFormed doc_bad_fault_number)))
                    doc_bad_fault_number eq_refl)
             (Elem "multiRef" [(xsi_type, "ns3:LicensingFault")] None
                [Elem "faultNumber" [] (Some "n/a") []])
             (Elem "faultNumber" [] (Some "n/a") [])).
    + reflexivity.
    + simpl. left. reflexivity.
    + reflexivity.
    + vm_compute. reflexivity.
Defined.

(** C10, counterexample: it is not the case that every well-formed
    response whose transaction state is absent or unknown ends negotiation
    with an error at that response: one with no transaction state and a
    [faultNumber] of [n/a] is followed by a further attempt. *)
Lemma C10_bad_fault_number_retried :
  ~ (forall n s d,
       authority s (length (posts s)) (license_envelope (want s))
         = Payload (WellFormed d) ->
       ~ In (LicenseXmlParser.state d)
            [Some "EULA_REQUIRED"; Some "LICENSE_RETURNED";
             Some "EMAIL_REQUIRED"; Some "CONTACT_INFO_REQUIRED"] ->
       exists e, gen_loop (S n) s = (Raise e, add_post (license_envelope (want s)) s)).
Proof.
  intros H.
  destruct (H 9 (sample_state sample_want None RmDone RmDone
                   (fun _ _ => Payload (WellFormed doc_bad_fault_number)))
              doc_bad_fault_number eq_refl) as [e He].
  - vm_compute. intros [Hs|[Hs|[Hs|[Hs|Hs]]]]; discriminate || contradiction.
  - vm_compute in He. discriminate He.
Qed.

End Claims.

(** * Further properties of the module *)

Section Parser.
Import LicenseXmlParser.

Lemma fault_fields_nil_text (cs : list elem) : forall acc f,
  Forall (fun c => tag c = "faultText" -> lookup xsi_nil (attrib c) = "true") cs ->
  fault_fields cs acc = Some f ->
  (f_text acc = None \/ f_text acc = Some None) ->
  f_text f = None \/ f_text f = Some None.
Proof.
  induction cs as [|c cs IH]; intros acc f Hall H Hacc; simpl in H.
  - inversion H; subst; exact Hacc.
  - inversion Hall as [|? ? Hc Hrest]; subst.
    destruct (String.eqb (tag c) "faultNumber").
    + destruct (py_int (text c)); [|discriminate].
      eapply IH; [exact Hrest | exact H | exact Hacc].
    + destruct (String.eqb_spec (tag c) "faultText") as [Ht|Ht].
      * rewrite (Hc Ht) in H. simpl in H.
        eapply IH; [exact Hrest | exact H | right; reflexivity].
      * eapply IH; [exact Hrest | exact H | exact Hacc].
Qed.

(** The parse of a response raises exactly when its [LicensingFault] block
    has a [faultNumber] child whose text [int()] rejects. *)
Theorem json_raises_iff_bad_fault_number (root : elem) :
  json root = None <->
  exists r c, find_element "LicensingFault" root = Some r /\ In c (children r) /\
              tag c = "faultNumber" /\ py_int (text c) = None.
Proof.
  unfold json, fault_number, fault_text, get_fault.
  destruct (find_element "LicensingFault" root) as [r|] eqn:Ef.
  - destruct (fault_fields (children r) {| f_number := None; f_text := None |})
      as [f|] eqn:Eff; simpl.
    + split; [discriminate|].
      intros (r' & c & Hr & Hin & Ht & Hp). inversion Hr; subst r'.
      assert (Hn : fault_fields (children r) {| f_number := None; f_text := None |} = None)
        by (apply fault_fields_none; eauto).
      congruence.
    + split; [intros _|reflexivity].
      apply fault_fields_none in Eff as (c & Hin & Ht & Hp). eauto 6.
  - simpl. split; [discriminate|]. intros (r & c & Hr & _). discriminate.
Qed.

(** A [faultText] element marked [xsi:nil="true"] gives an absent fault text,
    whatever text it holds. *)
Theorem json_nil_fault_text (root r : elem) (j : result) :
  find_element "LicensingFault" root = Some r ->
  Forall (fun c => tag c = "faultText" -> lookup xsi_nil (attrib c) = "true") (children r) ->
  json root = Some j ->
  r_fault_text j = None.
Proof.
  intros Hr Hall Hj. unfold json, fault_number, fault_text, get_fault in Hj.
  rewrite Hr in Hj.
  destruct (fault_fields (children r) {| f_number := None; f_text := None |})
    as [f|] eqn:Eff; [|discriminate].
  simpl in Hj. inversion Hj; subst j. simpl.
  destruct (fault_fields_nil_text _ _ _ Hall Eff (or_introl eq_refl)) as [E|E];
    rewrite E; reflexivity.
Qed.

Lemma json_nil_fault_text_witness :
  r_fault_text (match json doc_nil_fault with Some j => j | None => result_fault end) = None.
Proof.
  apply (json_nil_fault_text doc_nil_fault
           (Elem "multiRef" [(xsi_type, "ns3:LicensingFault")] None
              [Elem "faultNumber" [] (Some (nl ++ "    51092" ++ nl)) [];
               Elem "faultText" [(xsi_nil, "true")] (Some "ignored") []])).
  - reflexivity.
  - repeat constructor; simpl; intros H; first [reflexivity | discriminate H].
  - reflexivity.
Defined.

(** Without a [LicensingFault] block the parse never raises and both fault
    fields are absent. *)
Theorem json_without_fault (root : elem) :
  find_element "LicensingFault" root = None ->
  json root = Some {| r_eula := or_none (eula root);
                      r_license := or_none (license root);
                      r_state := or_none (state root);
                      r_fault_number := None;
                      r_fault_text := None |}.
Proof. intros H. unfold json, fault_number, fault_text, get_fault. now rewrite H. Qed.

Lemma json_without_fault_witness :
  json doc_license_returned = Some result_license_returned.
Proof. apply json_without_fault. reflexivity. Defined.

End Parser.

Section NegotiationMore.
Import ModuleManager.

(** Negotiation makes no device call, posts at most one envelope per
    attempt (at least one when it has an attempt), and leaves the license
    key, the dossier and the device state as they were. *)
Theorem gen_loop_frame (n : nat) : forall s o s',
  gen_loop n s = (o, s') ->
  log s' = log s /\ authority s' = authority s /\ reg_key s' = reg_key s /\
  license_key (want s') = license_key (want s) /\ dossier (want s') = dossier (want s) /\
  exists new, posts s' = app (posts s) new /\ length new <= n /\ (0 < n -> 1 <= length new).
Proof.
  induction n as [|n IH]; intros s o s' H.
  - simpl in H. inversion H; subst. repeat split; try reflexivity.
    exists []. rewrite app_nil_r. simpl. repeat split; lia.
  - rewrite gen_loop_S in H. cbv zeta in H.
    set (body := license_envelope (want s)) in *.
    assert (Hstep : forall s1 o1,
               log s1 = log s -> authority s1 = authority s -> reg_key s1 = reg_key s ->
               license_key (want s1) = license_key (want s) ->
               dossier (want s1) = dossier (want s) ->
               posts s1 = app (posts s) [body] ->
               gen_loop n s1 = (o1, s') ->
               log s' = log s /\ authority s' = authority s /\ reg_key s' = reg_key s /\
               license_key (want s') = license_key (want s) /\
               dossier (want s') = dossier (want s) /\
               exists new, posts s' = app (posts s) new /\ length new <= S n /\
                           (0 < S n -> 1 <= length new)).
    { intros s1 o1 H1 H2 H3 H4 H5 H6 Hg.
      destruct (IH s1 o1 s' Hg) as (G1 & G2 & G3 & G4 & G5 & new & G6 & G7 & G8).
      repeat split; try congruence.
      exists (app [body] new). rewrite G6, H6, app_assoc. simpl. split; [reflexivity|]. lia. }
    assert (Hstop : forall o1, (o1, add_post body s) = (o, s') ->
               log s' = log s /\ authority s' = authority s /\ reg_key s' = reg_key s /\
               license_key (want s') = license_key (want s) /\
               dossier (want s') = dossier (want s) /\
               exists new, posts s' = app (posts s) new /\ length new <= S n /\
                           (0 < S n -> 1 <= length new)).
    { intros o1 E. inversion E; subst. simpl. repeat split; try reflexivity.
      exists [body]. simpl. repeat split; lia. }
    destruct (authority s (length (posts s)) body) as [|r].
    + eapply Hstep; [..|exact H]; reflexivity.
    + destruct (parse r) as [e| |j].
      * eapply Hstop; exact H.
      * eapply Hstep; [..|exact H]; reflexivity.
      * destruct (state_is j "EULA_REQUIRED").
        -- eapply Hstep; [..|exact H]; reflexivity.
        -- destruct (state_is j "LICENSE_RETURNED"); [eapply Hstop; exact H|].
           destruct (state_is j "EMAIL_REQUIRED"); [eapply Hstop; exact H|].
           destruct (state_is j "CONTACT_INFO_REQUIRED"); eapply Hstop; exact H.
Qed.

Lemma gen_loop_frame_witness :
  log (snd (generate_license_from_remote
              (sample_state sample_want None RmDone RmDone eula_then_license))) = [] /\
  True.
Proof.
  split; [|exact I].
  destruct (gen_loop_frame 10 (sample_state sample_want None RmDone RmDone eula_then_license)
              (fst (generate_license_from_remote
                      (sample_state sample_want None RmDone RmDone eula_then_license)))
              (snd (generate_license_from_remote
                      (sample_state sample_want None RmDone RmDone eula_then_license))))
    as (Hl & _).
  - apply surjective_pairing.
  - exact Hl.
Defined.

(** [EMAIL_REQUIRED] and [CONTACT_INFO_REQUIRED] end negotiation at once
    with their own errors, after that single POST. *)
Theorem gen_loop_contact_errors (n : nat) (s : st) (d : elem) (j : LicenseXmlParser.result) :
  authority s (length (posts s)) (license_envelope (want s)) = Payload (WellFormed d) ->
  LicenseXmlParser.json d = Some j ->
  (LicenseXmlParser.r_state j = Some "EMAIL_REQUIRED" ->
   gen_loop (S n) s = (Raise (F5ModuleError (Some "Email must be provided")),
                       add_post (license_envelope (want s)) s)) /\
  (LicenseXmlParser.r_state j = Some "CONTACT_INFO_REQUIRED" ->
   gen_loop (S n) s = (Raise (F5ModuleError (Some "Contact info must be provided")),
                       add_post (license_envelope (want s)) s)).
Proof.
  intros Ha Hj. rewrite gen_loop_S. cbv zeta. rewrite Ha. simpl parse. rewrite Hj.
  unfold state_is. split; intros Hs; rewrite Hs; reflexivity.
Qed.

Lemma gen_loop_contact_errors_witness :
  gen_loop 10 (sample_state sample_want None RmDone RmDone
                 (fun _ _ => Payload (WellFormed doc_email_required)))
  = (Raise (F5ModuleError (Some "Email must be provided")),
     add_post (license_envelope sample_want)
       (sample_state sample_want None RmDone RmDone
          (fun _ _ => Payload (WellFormed doc_email_required)))).
Proof.
  apply (proj1 (gen_loop_contact_errors 9
                  (sample_state sample_want None RmDone RmDone
                     (fun _ _ => Payload (WellFormed doc_email_required)))
                  doc_email_required
                  {| LicenseXmlParser.r_eula := None; LicenseXmlParser.r_license := None;
                     LicenseXmlParser.r_state := Some "EMAIL_REQUIRED";
                     LicenseXmlParser.r_fault_number := None;
                     LicenseXmlParser.r_fault_text := None |}
                  eq_refl ltac:(vm_compute; reflexivity))).
  reflexivity.
Defined.

(** A server that answers every POST with [EULA_REQUIRED] makes negotiation
    use all its attempts and return nothing: [create_on_device] then fails
    with the generation error. *)
Lemma gen_loop_always_eula (n : nat) : forall s d j,
  (forall i b, authority s i b = Payload (WellFormed d)) ->
  LicenseXmlParser.json d = Some j ->
  LicenseXmlParser.r_state j = Some "EULA_REQUIRED" ->
  exists s', gen_loop n s = (Ok None, s') /\
             length (posts s') = length (posts s) + n /\ log s' = log s.
Proof.
  induction n as [|n IH]; intros s d j Ha Hj Hs.
  - exists s. simpl. split; [reflexivity|]. split; [lia|reflexivity].
  - rewrite gen_loop_S. cbv zeta. rewrite Ha. simpl parse. rewrite Hj.
    assert (E : state_is j "EULA_REQUIRED" = true) by (unfold state_is; now rewrite Hs).
    rewrite E.
    destruct (IH (set_want (with_eula (want (add_post (license_envelope (want s)) s))
                              (LicenseXmlParser.r_eula j))
                           (add_post (license_envelope (want s)) s)) d j Ha Hj Hs)
      as (s' & G & Gl & Glog).
    exists s'. split; [exact G|]. simpl in Gl, Glog. rewrite length_app in Gl.
    simpl in Gl. split; [lia|exact Glog].
Qed.

(** A server that keeps answering [EULA_REQUIRED] makes negotiation use all
    ten attempts, one POST each, and [create_on_device] then fails with
    the generation error before any device call. *)
Theorem create_on_device_eula_loop (s : st) (d : elem) (j : LicenseXmlParser.result) :
  (forall i b, authority s i b = Payload (WellFormed d)) ->
  LicenseXmlParser.json d = Some j ->
  LicenseXmlParser.r_state j = Some "EULA_REQUIRED" ->
  exists s', create_on_device s = (Raise (F5ModuleError (Some msg_generate_failed)), s') /\
             length (posts s') = length (posts s) + 10 /\ log s' = log s.
Proof.
  intros Ha Hj Hs.
  destruct (gen_loop_always_eula 10 s d j Ha Hj Hs) as (s' & G & Gl & Glog).
  exists s'. unfold create_on_device, bind, generate_license_from_remote. rewrite G.
  split; [reflexivity|]. split; assumption.
Qed.

Lemma create_on_device_eula_loop_witness :
  exists s', create_on_device (sample_state sample_want None RmDone RmDone
                                 (fun _ _ => Payload (WellFormed doc_eula_required)))
             = (Raise (F5ModuleError (Some msg_generate_failed)), s') /\
             length (posts s') = 0 + 10 /\ log s' = [].
Proof.
  apply (create_on_device_eula_loop
           (sample_state sample_want None RmDone RmDone
              (fun _ _ => Payload (WellFormed doc_eula_required)))
           doc_eula_required result_eula_required);
    [intros; reflexivity | vm_compute; reflexivity | reflexivity].
Defined.

End NegotiationMore.

Section Convergence.
Import ModuleManager.

Ltac mm_unfold :=
  unfold present, create, exists_, any_license_exists, load_registration,
    read_dossier_from_device, remove, absent, call, modify, gets, bind, ret,
    raise_msg, raise.

(** When the device already carries the wanted registration key, [present]
    reports no change after reading the registration only. *)
Theorem present_already_licensed (s : st) :
  registration_matches (reg_key s) (license_key (want s)) = true ->
  present s = (Ok false, add_log [LoadRegistration] s).
Proof. intros H. mm_unfold. simpl. now rewrite H. Qed.

Lemma present_already_licensed_witness :
  present (sample_state sample_want (Some "ABCDE-FGHIJ") RmDone RmDone
             (fun _ _ => TransportError))
  = (Ok false, add_log [LoadRegistration]
                 (sample_state sample_want (Some "ABCDE-FGHIJ") RmDone RmDone
                    (fun _ _ => TransportError))).
Proof. apply present_already_licensed. reflexivity. Defined.

(** In check mode, with the EULA accepted and the key not yet installed,
    [present] reports a change without asking for a dossier, contacting the
    server or changing the device. *)
Theorem present_check_mode (s : st) :
  registration_matches (reg_key s) (license_key (want s)) = false ->
  accept_eula (want s) = true -> check_mode s = true ->
  present s = (Ok true, add_log [LoadRegistration] s).
Proof. intros Hr Ha Hc. mm_unfold. simpl. rewrite Hr. simpl. rewrite Ha. simpl. now rewrite Hc. Qed.

Lemma present_check_mode_witness :
  present (set_mcpd_replies []
    {| want := sample_want; check_mode := true; reg_key := None;
       reg_after_reload := None; dossier_reply := None; rm_license_reply := RmDone;
       rm_eula_reply := RmDone; mcpd_replies := []; authority := (fun _ _ => TransportError);
       posts := []; log := [] |}) = (Ok true, add_log [LoadRegistration] (set_mcpd_replies []
    {| want := sample_want; check_mode := true; reg_key := None;
       reg_after_reload := None; dossier_reply := None; rm_license_reply := RmDone;
       rm_eula_reply := RmDone; mcpd_replies := []; authority := (fun _ _ => TransportError);
       posts := []; log := [] |})).
Proof. apply present_check_mode; reflexivity. Defined.

(** When the device returns no dossier (or an empty one), [present] fails
    with "Dossier not generated." after the registration read and the
    dossier request, before any POST or device change. *)
Theorem present_without_dossier (s : st) :
  registration_matches (reg_key s) (license_key (want s)) = false ->
  accept_eula (want s) = true -> check_mode s = false ->
  (dossier_reply s = None \/ dossier_reply s = Some EmptyString) ->
  exists s',
    present s = (Raise (F5ModuleError (Some "Dossier not generated.")), s') /\
    log s' = app (log s) [LoadRegistration;
                          GetDossier ("-b " ++ py_str (license_key (want s)))] /\
    posts s' = posts s /\ reg_key s' = reg_key s.
Proof.
  intros Hr Ha Hc Hd. mm_unfold. simpl. rewrite Hr. simpl. rewrite Ha. simpl. rewrite Hc. simpl.
  destruct Hd as [Hd|Hd]; rewrite Hd; eexists; (split; [reflexivity|]); simpl;
    rewrite <- app_assoc; unfold py_format; simpl; rewrite str_app_nil_r; repeat split.
Qed.

Lemma present_without_dossier_witness :
  exists s',
    present ({| want := sample_want; check_mode := false; reg_key := None;
                reg_after_reload := None; dossier_reply := Some EmptyString;
                rm_license_reply := RmDone; rm_eula_reply := RmDone; mcpd_replies := [];
                authority := (fun _ _ => TransportError); posts := []; log := [] |})
      = (Raise (F5ModuleError (Some "Dossier not generated.")), s') /\
    log s' = app [] [LoadRegistration; GetDossier ("-b " ++ "ABCDE-FGHIJ")] /\
    posts s' = [] /\ reg_key s' = None.
Proof. apply present_without_dossier; [reflexivity | reflexivity | reflexivity | right; reflexivity]. Defined.

Lemma bind_ok {A B} (m : M A) (k : A -> M B) (s s' : st) (a : A) :
  m s = (Ok a, s') -> bind m k s = k a s'.
Proof. intros H. unfold bind. now rewrite H. Qed.

Lemma bind_raise {A B} (m : M A) (k : A -> M B) (s s' : st) (e : exn) :
  m s = (Raise e, s') -> bind m k s = (Raise e, s').
Proof. intros H. unfold bind. now rewrite H. Qed.

(** Installing a returned license writes the license file, then the EULA
    file, then reloads, in that order, and leaves the registration the
    reload produces. *)
Theorem create_on_device_installs (s s1 : st) (j : LicenseXmlParser.result) (l e : string) :
  generate_license_from_remote s = (Ok (Some j), s1) ->
  LicenseXmlParser.r_license j = Some l -> LicenseXmlParser.r_eula j = Some e ->
  exists s',
    create_on_device s = (Ok tt, s') /\
    log s' = app (log s1) [BashRun (upload_license_cmd l); BashRun (upload_eula_cmd e);
                           BashRun reload_cmd] /\
    reg_key s' = reg_after_reload s1 /\ posts s' = posts s1.
Proof.
  intros Hg Hl He. unfold create_on_device. rewrite (bind_ok _ _ _ _ _ Hg).
  unfold upload_license_to_device, upload_eula_to_device. rewrite Hl, He.
  unfold bash_run, reload_license, bash_run, call, modify, bind, ret. simpl.
  eexists. split; [reflexivity|]. simpl. rewrite <- !app_assoc. repeat split.
Qed.

Lemma create_on_device_installs_witness :
  exists s',
    create_on_device (sample_state sample_want None RmDone RmDone eula_then_license)
      = (Ok tt, s') /\
    log s' = app [] [BashRun (upload_license_cmd "Registration Key : ABCDE-FGHIJ");
                     BashRun (upload_eula_cmd "END USER LICENSE AGREEMENT");
                     BashRun reload_cmd] /\
    reg_key s' = None /\
    posts s' = posts (snd (generate_license_from_remote
                             (sample_state sample_want None RmDone RmDone eula_then_license))).
Proof.
  apply (create_on_device_installs
           (sample_state sample_want None RmDone RmDone eula_then_license)
           (snd (generate_license_from_remote
                   (sample_state sample_want None RmDone RmDone eula_then_license)))
           result_license_returned).
  - rewrite (surjective_pairing (generate_license_from_remote _)) at 1.
    f_equal; vm_compute; reflexivity.
  - reflexivity.
  - reflexivity.
Defined.

(** A returned result without license text fails with a [TypeError] before
    any device call; one without EULA text fails after the license file is
    written and before the reload, leaving the license file in place. *)
Theorem create_on_device_missing_text (s s1 : st) (j : LicenseXmlParser.result) :
  generate_license_from_remote s = (Ok (Some j), s1) ->
  (LicenseXmlParser.r_license j = None ->
   create_on_device s = (Raise (OtherException "TypeError"), s1)) /\
  (forall l, LicenseXmlParser.r_license j = Some l -> LicenseXmlParser.r_eula j = None ->
   create_on_device s = (Raise (OtherException "TypeError"),
                         add_log [BashRun (upload_license_cmd l)] s1)).
Proof.
  intros Hg. unfold create_on_device. rewrite (bind_ok _ _ _ _ _ Hg).
  unfold upload_license_to_device, upload_eula_to_device.
  split; [intros Hl | intros l Hl He]; rewrite Hl; [reflexivity|].
  rewrite He. reflexivity.
Qed.

Lemma create_on_device_missing_text_witness :
  create_on_device (sample_state sample_want None RmDone RmDone
                      (fun _ _ => Payload (WellFormed (envelope_of [transaction_state "LICENSE_RETURNED"]))))
  = (Raise (OtherException "TypeError"),
     snd (generate_license_from_remote
            (sample_state sample_want None RmDone RmDone
               (fun _ _ => Payload (WellFormed (envelope_of [transaction_state "LICENSE_RETURNED"])))))).
Proof.
  apply (create_on_device_missing_text
           (sample_state sample_want None RmDone RmDone
              (fun _ _ => Payload (WellFormed (envelope_of [transaction_state "LICENSE_RETURNED"]))))
           (snd (generate_license_from_remote
                   (sample_state sample_want None RmDone RmDone
                      (fun _ _ => Payload (WellFormed
                                     (envelope_of [transaction_state "LICENSE_RETURNED"]))))))
           {| LicenseXmlParser.r_eula := None; LicenseXmlParser.r_license := None;
              LicenseXmlParser.r_state := Some "LICENSE_RETURNED";
              LicenseXmlParser.r_fault_number := None;
              LicenseXmlParser.r_fault_text := None |}).
  - rewrite (surjective_pairing (generate_license_from_remote _)) at 1.
    f_equal; vm_compute; reflexivity.
  - reflexivity.
Defined.

Lemma remove_from_device_benign (s : st) :
  rm_benign (rm_license_reply s) = true -> rm_benign (rm_eula_reply s) = true ->
  remove_from_device s =
    (Ok tt, set_reg_key (reg_after_reload s)
              (add_log [UnixRm license_path; UnixRm eula_path; BashRun reload_cmd] s)).
Proof.
  unfold remove_from_device, remove_license_from_device, remove_eula_from_device,
    rm_file, reload_license, bash_run, call, modify, gets, bind, ret, raise_msg, raise.
  simpl. unfold rm_benign. intros H1 H2.
  destruct (rm_license_reply s) as [|m1|m1];
    try destruct (contains "No such file or directory" m1); try discriminate;
    simpl;
    destruct (rm_eula_reply s) as [|m2|m2];
    try destruct (contains "No such file or directory" m2); try discriminate;
    unfold set_reg_key, add_log; simpl; rewrite <- !app_assoc; reflexivity.
Qed.

(** [absent] removes whatever license is installed, not only the one named
    by [license_key]: with removals that succeed, a reload that leaves no
    matching key and a device that reports ready, it reads the
    registration, removes both files, reloads, checks the registration,
    waits for readiness and checks it again, then reports a change. *)
Theorem absent_removes_any_license (s : st) (k : string) (n : nat) (rem : list mcpd_reply) :
  check_mode s = false -> reg_key s = Some k ->
  rm_benign (rm_license_reply s) = true -> rm_benign (rm_eula_reply s) = true ->
  registration_matches (reg_after_reload s) (license_key (want s)) = false ->
  mcpd_loop 0 (mcpd_replies s) = Some (n, rem) ->
  exists s',
    absent s = (Ok true, s') /\
    log s' = app (log s)
               (app [LoadRegistration; UnixRm license_path; UnixRm eula_path;
                     BashRun reload_cmd; LoadRegistration]
                    (app (repeat (BashRun mcpd_cmd) n) [LoadRegistration])) /\
    reg_key s' = reg_after_reload s /\ mcpd_replies s' = rem.
Proof.
  intros Hc Hk H1 H2 Hm Hw.
  unfold absent, any_license_exists, remove, exists_, load_registration,
    call, modify, gets, bind, ret, raise_msg, raise.
  simpl. rewrite Hk. simpl. rewrite Hc.
  rewrite remove_from_device_benign by assumption. simpl.
  rewrite Hm. unfold wait_for_mcpd. simpl. rewrite Hw. simpl. rewrite Hm.
  eexists. split; [reflexivity|]. simpl.
  rewrite <- !app_assoc. repeat split.
Qed.

Lemma absent_removes_any_license_witness :
  exists s',
    absent (set_mcpd_replies [McpdRunning; McpdRunning; McpdRunning; McpdRunning]
              (sample_state sample_want (Some "OTHER-KEY") RmDone RmDone
                 (fun _ _ => TransportError))) = (Ok true, s') /\
    log s' = app []
               (app [LoadRegistration; UnixRm license_path; UnixRm eula_path;
                     BashRun reload_cmd; LoadRegistration]
                    (app (repeat (BashRun mcpd_cmd) 4) [LoadRegistration])) /\
    reg_key s' = None /\ mcpd_replies s' = [].
Proof.
  apply (absent_removes_any_license
           (set_mcpd_replies [McpdRunning; McpdRunning; McpdRunning; McpdRunning]
              (sample_state sample_want (Some "OTHER-KEY") RmDone RmDone
                 (fun _ _ => TransportError))) "OTHER-KEY" 4 []); reflexivity.
Defined.

(** In check mode [absent] touches nothing on the device, yet it still
    waits for readiness and re-reads the registration; when the installed
    key is the one named by [license_key] it therefore fails with the
    removal error, otherwise it reports a change. *)
Theorem absent_check_mode (s : st) (k : string) (n : nat) (rem : list mcpd_reply) :
  check_mode s = true -> reg_key s = Some k ->
  mcpd_loop 0 (mcpd_replies s) = Some (n, rem) ->
  exists s',
    absent s =
      (if registration_matches (Some k) (license_key (want s))
       then Raise (F5ModuleError (Some "Failed to remove the license from the device."))
       else Ok true, s') /\
    log s' = app (log s)
               (app [LoadRegistration]
                    (app (repeat (BashRun mcpd_cmd) n) [LoadRegistration])) /\
    reg_key s' = reg_key s.
Proof.
  intros Hc Hk Hw.
  unfold absent, any_license_exists, remove, exists_, load_registration,
    call, modify, gets, bind, ret, raise_msg, raise.
  simpl. rewrite Hk. simpl. rewrite Hc.
  unfold wait_for_mcpd. simpl. rewrite Hw. simpl. rewrite Hk.
  unfold registration_matches.
  destruct (license_key (want s)) as [l|]; [destruct (String.eqb k l)|];
    (eexists; split; [reflexivity|]); simpl; rewrite <- !app_assoc; split; auto.
Qed.

Lemma absent_check_mode_witness :
  exists s',
    absent (
      {| want := sample_want; check_mode := true; reg_key := Some "ABCDE-FGHIJ";
         reg_after_reload := None; dossier_reply := None;
         rm_license_reply := RmDone; rm_eula_reply := RmDone;
         mcpd_replies := [McpdRunning; McpdRunning; McpdRunning; McpdRunning];
         authority := (fun _ _ => TransportError); posts := []; log := [] |}) =
      (if registration_matches (Some "ABCDE-FGHIJ") (Some "ABCDE-FGHIJ")
       then Raise (F5ModuleError (Some "Failed to remove the license from the device."))
       else Ok true, s') /\
    log s' = app []
               (app [LoadRegistration]
                    (app (repeat (BashRun mcpd_cmd) 4) [LoadRegistration])) /\
    reg_key s' = Some "ABCDE-FGHIJ".
Proof.
  apply (absent_check_mode
      ({| want := sample_want; check_mode := true; reg_key := Some "ABCDE-FGHIJ";
          reg_after_reload := None; dossier_reply := None;
          rm_license_reply := RmDone; rm_eula_reply := RmDone;
          mcpd_replies := [McpdRunning; McpdRunning; McpdRunning; McpdRunning];
          authority := (fun _ _ => TransportError); posts := []; log := [] |})
      "ABCDE-FGHIJ" 4 []); reflexivity.
Defined.

(** When the desired key is still registered after the files are removed
    and the license reloaded, [remove] fails with the deletion error right
    after that check, without waiting for readiness. *)
Theorem remove_fails_when_still_registered (s : st) :
  check_mode s = false ->
  rm_benign (rm_license_reply s) = true -> rm_benign (rm_eula_reply s) = true ->
  registration_matches (reg_after_reload s) (license_key (want s)) = true ->
  exists s',
    remove s = (Raise (F5ModuleError (Some "Failed to delete the resource.")), s') /\
    log s' = app (log s) [UnixRm license_path; UnixRm eula_path;
                          BashRun reload_cmd; LoadRegistration] /\
    mcpd_replies s' = mcpd_replies s.
Proof.
  intros Hc H1 H2 Hm.
  unfold remove, exists_, load_registration, call, modify, gets, bind, ret, raise_msg, raise.
  rewrite Hc. rewrite remove_from_device_benign by assumption. simpl. rewrite Hm.
  eexists. split; [reflexivity|]. simpl. rewrite <- !app_assoc. split; reflexivity.
Qed.

Lemma remove_fails_when_still_registered_witness :
  exists s',
    remove (
      {| want := sample_want; check_mode := false; reg_key := Some "ABCDE-FGHIJ";
         reg_after_reload := Some "ABCDE-FGHIJ"; dossier_reply := None;
         rm_license_reply := RmDone; rm_eula_reply := RmDone; mcpd_replies := [];
         authority := (fun _ _ => TransportError); posts := []; log := [] |}) =
      (Raise (F5ModuleError (Some "Failed to delete the resource.")), s') /\
    log s' = app [] [UnixRm license_path; UnixRm eula_path;
                     BashRun reload_cmd; LoadRegistration] /\
    mcpd_replies s' = [].
Proof.
  apply (remove_fails_when_still_registered
      ({| want := sample_want; check_mode := false; reg_key := Some "ABCDE-FGHIJ";
          reg_after_reload := Some "ABCDE-FGHIJ"; dossier_reply := None;
          rm_license_reply := RmDone; rm_eula_reply := RmDone; mcpd_replies := [];
          authority := (fun _ _ => TransportError); posts := []; log := [] |}));
    reflexivity.
Defined.

Lemma repeat_snoc {A} (x : A) (m : nat) : app (repeat x m) [x] = repeat x (S m).
Proof. induction m as [|m IH]; simpl; [reflexivity|]. now rewrite IH. Qed.

Lemma mcpd_fold_trailing (p : list mcpd_reply) : forall m,
  m <= fold_left mcpd_step p 0 -> exists q, p = app q (repeat McpdRunning m).
Proof.
  induction p as [|r p IH] using rev_ind; intros m Hm.
  - simpl in Hm. assert (m = 0) by lia. subst. exists []. reflexivity.
  - rewrite fold_left_app in Hm. simpl in Hm. unfold mcpd_step at 1 in Hm.
    destruct m as [|m]; [exists (app p [r]); simpl; now rewrite app_nil_r|].
    destruct r; simpl in Hm; try lia.
    destruct (IH m ltac:(lia)) as [q Hq]. exists q.
    rewrite Hq, <- app_assoc, repeat_snoc. reflexivity.
Qed.

(** [wait_for_mcpd] returns only once the last four readiness checks it
    made all reported a running daemon, after at least four checks, and
    the readiness query is the only call it makes. *)
Theorem wait_for_mcpd_ends_on_four_running (s s' : st) (o : outcome unit) :
  wait_for_mcpd s = (o, s') -> o <> Diverge ->
  o = Ok tt /\
  exists consumed q,
    mcpd_replies s = app consumed (mcpd_replies s') /\
    consumed = app q (repeat McpdRunning mcpd_threshold) /\
    log s' = app (log s) (repeat (BashRun mcpd_cmd) (length consumed)) /\
    reg_key s' = reg_key s.
Proof.
  unfold wait_for_mcpd. intros H Hd.
  destruct (mcpd_loop 0 (mcpd_replies s)) as [[k rem]|] eqn:E;
    inversion H; subst; [|congruence].
  split; [reflexivity|].
  destruct (proj1 (mcpd_loop_spec _ 0 k rem) E) as (Hk & Hrem & Hth & _).
  unfold nops_after in Hth.
  destruct (mcpd_fold_trailing _ _ Hth) as [q Hq].
  exists (firstn k (mcpd_replies s)), q. simpl.
  rewrite Hrem, firstn_skipn, firstn_length_le by assumption.
  repeat split; assumption.
Qed.

Lemma wait_for_mcpd_ends_on_four_running_witness :
  Ok tt = Ok tt /\
  exists consumed q,
    flapping_signals = app consumed [] /\
    consumed = app q (repeat McpdRunning mcpd_threshold) /\
    log (snd (wait_for_mcpd (set_mcpd_replies flapping_signals
                               (sample_state sample_want None RmDone RmDone
                                  (fun _ _ => TransportError)))))
      = app [] (repeat (BashRun mcpd_cmd) (length consumed)) /\
    None = @None string.
Proof.
  apply (wait_for_mcpd_ends_on_four_running
           (set_mcpd_replies flapping_signals
              (sample_state sample_want None RmDone RmDone (fun _ _ => TransportError)))
           (snd (wait_for_mcpd (set_mcpd_replies flapping_signals
                                  (sample_state sample_want None RmDone RmDone
                                     (fun _ _ => TransportError)))))
           (Ok tt)).
  - reflexivity.
  - discriminate.
Defined.

Lemma envelope_template_head :
  exists h m,
    firstn 7 (tokens envelope_template) =
    [Lit h; Field "0"; Lit (m ++ dossier_open); Field "1";
     Lit (eula_pre ++ eula_open); Field "eula"; Lit (eula_close ++ eula_post)].
Proof.
  set (x := match nth 2 (tokens envelope_template) (Lit EmptyString) with
            | Lit x => x | Field _ => EmptyString end).
  exists (match nth 0 (tokens envelope_template) (Lit EmptyString) with
          | Lit x => x | Field _ => EmptyString end).
  exists (substring 0 (String.length x - String.length dossier_open) x).
  subst x. vm_compute. reflexivity.
Qed.

(** The request envelope starts with a text fixed by the template, then the
    server name, a fixed text ending in the opening [dossier] tag, the
    dossier as [str] prints it (the text [None] for a missing dossier)
    with no escaping, and right after it the [eula] element with the EULA
    text, also unescaped. *)
Theorem license_envelope_layout :
  exists head mid, forall w, exists rest,
    license_envelope w =
      head ++ license_server w ++ mid ++ dossier_open ++ py_str (dossier w) ++
      eula_pre ++ eula_open ++ or_empty (eula w) ++ eula_close ++ eula_post ++ rest.
Proof.
  destruct envelope_template_head as (h & m & Hf).
  exists h, m. intros w.
  unfold license_envelope, py_format.
  rewrite <- (firstn_skipn 7 (tokens envelope_template)), Hf, render_app.
  set (args := ("0", license_server w) :: ("1", py_str (dossier w)) :: license_options w).
  exists (render args (skipn 7 (tokens envelope_template))).
  assert (H0 : lookup "0" args = license_server w) by reflexivity.
  assert (H1 : lookup "1" args = py_str (dossier w)) by reflexivity.
  assert (He : lookup "eula" args = or_empty (eula w)) by reflexivity.
  cbn [render]. rewrite H0, H1, He, str_app_nil_r.
  rewrite !str_app_assoc. reflexivity.
Qed.

Lemma upload_eula_cmd_shape (t : string) :
  upload_eula_cmd t = eula_cmd_prefix ++ escape t ++ license_cmd_suffix.
Proof.
  unfold upload_eula_cmd, py_format, eula_cmd_prefix, license_cmd_suffix; cbn.
  rewrite !str_app_assoc. reflexivity.
Qed.

(** The command of [upload_eula_to_device] is the heredoc ended by [EOF]
    around the escaped EULA text.  In the escaped text every dollar sign,
    double quote and single quote is preceded by a backslash; dropping the
    backslash in front of each of them gives the EULA text back; and the
    escaped text has a line [EOF] exactly when the EULA text has one. *)
Theorem upload_eula_cmd_escaping (t : string) :
  upload_eula_cmd t = eula_cmd_prefix ++ escape t ++ license_cmd_suffix /\
  escaped_ok None (escape t) = true /\
  unescape (escape t) = t /\
  (heredoc_collides (escape t) = true <-> In heredoc_delimiter (lines t)).
Proof.
  split; [apply upload_eula_cmd_shape|].
  split; [apply escaped_ok_escape|].
  split; [apply unescape_escape|].
  apply heredoc_collides_escape.
Qed.

End Convergence.
